(** * Data-quality validator and per-stock table lifecycle of kiwoom-trading

    Shallow embedding of [src/core/data_validator.py] and [src/core/database.py].

    Conventions of the model.
    - A Python [date] is represented by its proleptic Gregorian ordinal
      ([date.toordinal()]): 1 is 0001-01-01 and [MAXORDINAL] is 9999-12-31.
      Its calendar fields are computed from the ordinal the way
      [datetime._ord2ymd] does; comparison of dates is comparison of ordinals.
    - A per-stock table is the list of its rows, in insertion order; the
      [date] column holds the 8-character text the program stores.
    - SQL aggregates are list functions; a nullable column is an [option].
    - Python floats obtained from integer counts and sums ([AVG], ratios,
      thresholds) are exact rationals.
    - Storage access itself does not fail: the only exceptions modelled are
      the ones the Python code raises on its data ([ValueError] of
      [strptime], [OverflowError] of date arithmetic, and the refusal of
      SQLAlchemy's [Table] to redefine a name of its [MetaData]). *)

From Stdlib Require Import ZArith QArith List String Ascii Bool Lia Permutation Sorted.
From stdpp Require Import base gmap strings list fin_maps.

Open Scope string_scope.
Open Scope list_scope.
Open Scope Z_scope.

(* ===================================================================== *)
(** * Dates ([datetime.date]) *)
(* ===================================================================== *)

Module Calendar.

Definition date := Z.

Definition MAXORDINAL : Z := 3652059.


Definition _is_leap (year : Z) : bool :=
  (year mod 4 =? 0) && (negb (year mod 100 =? 0) || (year mod 400 =? 0)).

Definition _days_before_year (year : Z) : Z :=
  let y := year - 1 in y * 365 + y / 4 - y / 100 + y / 400.

Definition _DAYS_IN_MONTH (month : Z) : Z :=
  match month with
  | 1 => 31 | 2 => 28 | 3 => 31 | 4 => 30 | 5 => 31 | 6 => 30
  | 7 => 31 | 8 => 31 | 9 => 30 | 10 => 31 | 11 => 30 | 12 => 31
  | _ => 0
  end.

Definition _DAYS_BEFORE_MONTH (month : Z) : Z :=
  match month with
  | 1 => 0 | 2 => 31 | 3 => 59 | 4 => 90 | 5 => 120 | 6 => 151
  | 7 => 181 | 8 => 212 | 9 => 243 | 10 => 273 | 11 => 304 | 12 => 334
  | _ => 0
  end.

Definition _days_in_month (year month : Z) : Z :=
  if (month =? 2) && _is_leap year then 29 else _DAYS_IN_MONTH month.

Definition _days_before_month (year month : Z) : Z :=
  _DAYS_BEFORE_MONTH month + (if (2 <? month) && _is_leap year then 1 else 0).

Definition _ymd2ord (year month day : Z) : Z :=
  _days_before_year year + _days_before_month year month + day.

Definition _DI400Y : Z := 146097.
Definition _DI100Y : Z := 36524.
Definition _DI4Y : Z := 1461.

(** [datetime._ord2ymd]: ordinal to (year, month, day). *)
Definition _ord2ymd (n0 : Z) : Z * Z * Z :=
  let n := n0 - 1 in
  let n400 := n / _DI400Y in
  let n := n mod _DI400Y in
  let year := n400 * 400 + 1 in
  let n100 := n / _DI100Y in
  let n := n mod _DI100Y in
  let n4 := n / _DI4Y in
  let n := n mod _DI4Y in
  let n1 := n / 365 in
  let n := n mod 365 in
  let year := year + n100 * 100 + n4 * 4 + n1 in
  if (n1 =? 4) || (n100 =? 4) then (year - 1, 12, 31)
  else
    let leapyear := (n1 =? 3) && (negb (n4 =? 24) || (n100 =? 3)) in
    let month := Z.shiftr (n + 50) 5 in
    let preceding :=
      _DAYS_BEFORE_MONTH month + (if (2 <? month) && leapyear then 1 else 0) in
    if n <? preceding then
      let month := month - 1 in
      let preceding :=
        preceding - (_DAYS_IN_MONTH month
                     + (if (month =? 2) && leapyear then 1 else 0)) in
      (year, month, n - preceding + 1)
    else (year, month, n - preceding + 1).

Definition year (d : date) : Z := fst (fst (_ord2ymd d)).
Definition month (d : date) : Z := snd (fst (_ord2ymd d)).
Definition day (d : date) : Z := snd (_ord2ymd d).

(** [date(year, month, day)]; [None] is the constructor's [ValueError]. *)
Definition mk_date (y m d : Z) : option date :=
  if (1 <=? y) && (y <=? 9999) && (1 <=? m) && (m <=? 12)
     && (1 <=? d) && (d <=? _days_in_month y m)
  then Some (_ymd2ord y m d) else None.

(** [date.weekday()]: Monday is 0, Sunday is 6. *)
Definition weekday (d : date) : Z := (d + 6) mod 7.

Inductive exn := ValueError | OverflowError.

(** [d + timedelta(days=k)]. *)
Definition add_days (d : date) (k : Z) : exn + date :=
  let o := d + k in
  if (0 <? o) && (o <=? MAXORDINAL) then inr o else inl OverflowError.

(** ** Text form [%Y%m%d] *)

Definition digit_of_ascii (c : ascii) : option Z :=
  let n := Z.of_N (N_of_ascii c) in
  if (48 <=? n) && (n <=? 57) then Some (n - 48) else None.

Definition ascii_of_digit (n : Z) : ascii :=
  ascii_of_N (Z.to_N (48 + n mod 10)).

Fixpoint digits_value (acc : Z) (cs : list ascii) : option Z :=
  match cs with
  | [] => Some acc
  | c :: cs' =>
      match digit_of_ascii c with
      | Some v => digits_value (acc * 10 + v) cs'
      | None => None
      end
  end.

(** [datetime.strptime(s, '%Y%m%d').date()] on the canonical eight-digit
    form, the one the program writes.  Any other text is a [ValueError]
    here (CPython's parser also reads one-digit months and days). *)
Definition strptime (s : string) : option date :=
  match list_ascii_of_string s with
  | [y1; y2; y3; y4; m1; m2; d1; d2] =>
      match digits_value 0 [y1; y2; y3; y4],
            digits_value 0 [m1; m2], digits_value 0 [d1; d2] with
      | Some y, Some m, Some d => mk_date y m d
      | _, _, _ => None
      end
  | _ => None
  end.

Definition pad4 (n : Z) : list ascii :=
  [ascii_of_digit (n / 1000); ascii_of_digit (n / 100);
   ascii_of_digit (n / 10); ascii_of_digit n].

Definition pad2 (n : Z) : list ascii :=
  [ascii_of_digit (n / 10); ascii_of_digit n].

(** [d.strftime('%Y%m%d')], the year zero-padded to four digits. *)
Definition strftime (d : date) : string :=
  string_of_list_ascii (pad4 (year d) ++ pad2 (month d) ++ pad2 (day d)).

End Calendar.

Import Calendar.

(* ===================================================================== *)
(** * Trading calendar ([TradingDateCalculator]) *)
(* ===================================================================== *)

(** Result of a call whose body contains a [while] loop: the value it
    returns, the exception it raises, or the exhaustion of the fuel that
    bounds the unrolling of the loop (shown below never to happen). *)
Inductive outcome (A : Type) :=
| Returned (a : A)
| Raised (e : exn)
| OutOfFuel.
Arguments Returned {A} a.
Arguments Raised {A} e.
Arguments OutOfFuel {A}.

Module TradingDateCalculator.

Definition fixed_holidays : list (Z * Z) :=
  [(1, 1); (3, 1); (5, 5); (6, 6); (8, 15); (10, 3); (10, 9); (12, 25)].

Definition extra_holidays_2025 : list (Z * Z) :=
  [(1, 28); (1, 29); (1, 30); (5, 6); (10, 6)].

Definition get_korean_holidays (year : Z) : list date :=
  let holidays := map (fun md => _ymd2ord year (fst md) (snd md)) fixed_holidays in
  if year =? 2025
  then holidays ++ map (fun md => _ymd2ord 2025 (fst md) (snd md)) extra_holidays_2025
  else holidays.

Definition is_trading_day (target_date : date) : bool :=
  if 5 <=? weekday target_date then false
  else
    let holidays := get_korean_holidays (year target_date) in
    if existsb (Z.eqb target_date) holidays then false
    else true.

(** The [while current_date <= end_date] loop, one iteration per unit of fuel. *)
Fixpoint trading_days_loop (fuel : nat) (current_date end_date : date)
    (trading_days : list date) : outcome (list date) :=
  match fuel with
  | O => OutOfFuel
  | S fuel' =>
      if current_date <=? end_date then
        let trading_days' :=
          if is_trading_day current_date
          then trading_days ++ [current_date] else trading_days in
        match add_days current_date 1 with
        | inl e => Raised e
        | inr next => trading_days_loop fuel' next end_date trading_days'
        end
      else Returned trading_days
  end.

Definition get_trading_days_between (start_date end_date : date)
    : outcome (list date) :=
  trading_days_loop (S (Z.to_nat (end_date - start_date + 1)))
                    start_date end_date [].

(** [date(2020, 1, 1)], where [get_recent_trading_days] stops looking back. *)
Definition recent_epoch : date := _ymd2ord 2020 1 1.

(** The loop of [get_recent_trading_days]; [today] stands for [date.today()]. *)
Fixpoint recent_days_loop (fuel : nat) (current_date : date) (days_count : Z)
    (trading_days : list string) : outcome (list string) :=
  match fuel with
  | O => OutOfFuel
  | S fuel' =>
      if (Z.of_nat (length trading_days) <? days_count)
         && (recent_epoch <=? current_date) then
        let trading_days' :=
          if is_trading_day current_date
          then trading_days ++ [strftime current_date] else trading_days in
        match add_days current_date (-1) with
        | inl e => Raised e
        | inr prev => recent_days_loop fuel' prev days_count trading_days'
        end
      else Returned trading_days
  end.

Definition get_recent_trading_days (today : date) (days_count : Z)
    : outcome (list string) :=
  recent_days_loop (S (Z.to_nat (today - recent_epoch + 1))) today days_count [].

End TradingDateCalculator.

Import TradingDateCalculator.

(* ===================================================================== *)
(** * Storage ([database.py]) *)
(* ===================================================================== *)

(** Row of the [stocks] registry table. *)
Module Stock.
Record t := mk {
  code : string;
  name : string;
  market : option string;
  table_created : bool;
  last_updated : option Z;
  data_count : option Z;
  first_date : option string;
  latest_date : option string;
  is_active : bool;
  created_at : option Z;
  updated_at : option Z
}.
End Stock.

(** Row of a [daily_prices_<code>] table. *)
Module DailyRow.
Record t := mk {
  id : Z;
  date : string;
  start_price : option Z;
  high_price : option Z;
  low_price : option Z;
  current_price : option Z;
  volume : option Z;
  trading_value : option Z;
  prev_day_diff : option Z;
  change_rate : option Z;
  created_at : option Z
}.
End DailyRow.

(** ** SQL aggregates and orderings used by the queries *)

Definition sql_count {A} (l : list A) : Z := Z.of_nat (length l).

(** [MIN] and [MAX] over a text column (byte-wise comparison). *)
Fixpoint sql_min_text (l : list string) : option string :=
  match l with
  | [] => None
  | x :: tl =>
      match sql_min_text tl with
      | None => Some x
      | Some m => Some (if String.leb x m then x else m)
      end
  end.

Fixpoint sql_max_text (l : list string) : option string :=
  match l with
  | [] => None
  | x :: tl =>
      match sql_max_text tl with
      | None => Some x
      | Some m => Some (if String.leb m x then x else m)
      end
  end.

Fixpoint sql_min_int (l : list Z) : option Z :=
  match l with
  | [] => None
  | x :: tl =>
      match sql_min_int tl with
      | None => Some x
      | Some m => Some (Z.min x m)
      end
  end.

Fixpoint sql_max_int (l : list Z) : option Z :=
  match l with
  | [] => None
  | x :: tl =>
      match sql_max_int tl with
      | None => Some x
      | Some m => Some (Z.max x m)
      end
  end.

Definition sum_Z (l : list Z) : Z := fold_right Z.add 0 l.

(** [AVG] over the non-null values of an integer column. *)
Definition sql_avg (l : list Z) : option Q :=
  match l with
  | [] => None
  | _ => Some (inject_Z (sum_Z l) / inject_Z (sql_count l))%Q
  end.

(** Python's [int(x)] on a float: truncation towards zero. *)
Definition int_of_Q (q : Q) : Z := Z.quot (Qnum q) (Z.pos (Qden q)).

Definition Qlt_bool (x y : Q) : bool := negb (Qle_bool y x).

(** [ORDER BY] as a stable insertion sort; [le a b] says that [a] may
    come before [b]. *)
Fixpoint insert_by {A} (le : A -> A -> bool) (x : A) (l : list A) : list A :=
  match l with
  | [] => [x]
  | y :: tl => if le x y then x :: y :: tl else y :: insert_by le x tl
  end.

Definition order_by {A} (le : A -> A -> bool) (l : list A) : list A :=
  fold_right (insert_by le) [] l.

Definition is_null {A} (o : option A) : bool :=
  match o with None => true | Some _ => false end.

(** [col = 0 OR col IS NULL]. *)
Definition zero_or_null (o : option Z) : bool :=
  match o with None => true | Some v => v =? 0 end.

(** [col IS NOT NULL AND col > 0]; also plain [col > 0], which is not
    true of a null. *)
Definition positive (o : option Z) : bool :=
  match o with None => false | Some v => 0 <? v end.

(** The non-null values of a column among the rows that satisfy [p]. *)
Definition column_where {A} (col : A -> option Z) (p : A -> bool)
    (rows : list A) : list Z :=
  omap col (filter (fun r => p r = true) rows).

(** ** Database state *)

Record db := mk_db {
  stocks : gmap string Stock.t;            (* the [stocks] table, by primary key *)
  tables : gmap string (list DailyRow.t);  (* the physical per-stock tables, by table name *)
  metadata : gset string                   (* table names defined in [self.metadata] *)
}.

Definition set_stocks (d : db) (s : gmap string Stock.t) : db :=
  mk_db s (tables d) (metadata d).
Definition set_tables (d : db) (t : gmap string (list DailyRow.t)) : db :=
  mk_db (stocks d) t (metadata d).

Definition truthy (s : option string) : bool :=
  match s with
  | None => false
  | Some v => negb (String.eqb v "")
  end.

Definition or_default (s : option string) (dflt : string) : string :=
  match s with
  | Some v => if String.eqb v "" then dflt else v
  | None => dflt
  end.

Module DynamicTableManager.

Definition get_stock_table_name (stock_code : string) : string :=
  "daily_prices_" +:+ stock_code.

Definition check_stock_table_exists (d : db) (stock_code : string) : bool :=
  bool_decide (is_Some (tables d !! get_stock_table_name stock_code)).

(** [Table(table_name, self.metadata, ...)] raises when [self.metadata]
    already holds a table of that name (it was created, then dropped, by
    this process); the [except] arm turns that into [False]. *)
Definition create_stock_daily_table (d : db) (stock_code : string) : bool * db :=
  let table_name := get_stock_table_name stock_code in
  if check_stock_table_exists d stock_code then (true, d)
  else if bool_decide (table_name ∈ metadata d) then (false, d)
  else (true, mk_db (stocks d) (<[table_name := []]> (tables d))
                    ({[table_name]} ∪ metadata d)).

Definition drop_stock_table (d : db) (stock_code : string) : bool * db :=
  (true, set_tables d (delete (get_stock_table_name stock_code) (tables d))).

End DynamicTableManager.

Module StockMetadataManager.

Definition register_stock (d : db) (stock_code : string)
    (name market : option string) (now : Z) : bool * db :=
  match stocks d !! stock_code with
  | Some existing =>
      let updated :=
        Stock.mk (Stock.code existing)
          (or_default name (Stock.name existing))
          (if truthy market then market else Stock.market existing)
          (Stock.table_created existing) (Stock.last_updated existing)
          (Stock.data_count existing) (Stock.first_date existing)
          (Stock.latest_date existing) (Stock.is_active existing)
          (Stock.created_at existing) (Some now) in
      (true, set_stocks d (<[stock_code := updated]> (stocks d)))
  | None =>
      let new_stock :=
        Stock.mk stock_code
          (or_default name ("종목_" +:+ stock_code))
          (Some (or_default market "UNKNOWN"))
          false None (Some 0) None None true (Some now) (Some now) in
      (true, set_stocks d (<[stock_code := new_stock]> (stocks d)))
  end.

Definition mark_table_created (d : db) (stock_code : string) (now : Z)
    : bool * db :=
  match stocks d !! stock_code with
  | Some stock =>
      let updated :=
        Stock.mk (Stock.code stock) (Stock.name stock) (Stock.market stock)
          true (Stock.last_updated stock) (Stock.data_count stock)
          (Stock.first_date stock) (Stock.latest_date stock)
          (Stock.is_active stock) (Stock.created_at stock) (Some now) in
      (true, set_stocks d (<[stock_code := updated]> (stocks d)))
  | None => (false, d)
  end.

(** The statistics are read from the table itself; a missing table makes
    the [COUNT] query raise, which the [except] arm turns into [False]. *)
Definition update_stock_stats (d : db) (stock_code : string) (now : Z)
    : bool * db :=
  match stocks d !! stock_code with
  | None => (false, d)
  | Some stock =>
      let table_name := "daily_prices_" +:+ stock_code in
      match tables d !! table_name with
      | None => (false, d)
      | Some rows =>
          let data_count := sql_count rows in
          let first_date :=
            if 0 <? data_count then sql_min_text (map DailyRow.date rows)
            else None in
          let latest_date :=
            if 0 <? data_count then sql_max_text (map DailyRow.date rows)
            else None in
          let updated :=
            Stock.mk (Stock.code stock) (Stock.name stock) (Stock.market stock)
              (Stock.table_created stock) (Some now) (Some data_count)
              first_date latest_date (Stock.is_active stock)
              (Stock.created_at stock) (Some now) in
          (true, set_stocks d (<[stock_code := updated]> (stocks d)))
      end
  end.


Definition active_stocks (d : db) : list Stock.t :=
  filter (fun s => Stock.is_active s = true) (map snd (map_to_list (stocks d))).


(** One entry of the list returned by [get_all_active_stocks]. *)
Record stock_info := mk_stock_info {
  info_code : string;
  info_name : string;
  info_market : option string;
  info_table_created : bool;
  info_data_count : option Z;
  info_latest_date : option string;
  info_last_updated : option Z
}.

Definition get_all_active_stocks (d : db) : list stock_info :=
  map (fun stock =>
         mk_stock_info (Stock.code stock) (Stock.name stock) (Stock.market stock)
           (Stock.table_created stock) (Stock.data_count stock)
           (Stock.latest_date stock) (Stock.last_updated stock))
      (active_stocks d).

End StockMetadataManager.

Module EnhancedDatabaseService.

Import DynamicTableManager StockMetadataManager.

Definition prepare_stock_for_collection (d : db) (stock_code : string)
    (name market : option string) (now : Z) : bool * db :=
  let (registered, d1) := register_stock d stock_code name market now in
  if negb registered then (false, d1)
  else
    let (created, d2) := create_stock_daily_table d1 stock_code in
    if negb created then (false, d2)
    else
      let (_, d3) := mark_table_created d2 stock_code now in
      (true, d3).

(** One day's bar, as the arguments of [add_daily_price_to_stock]. *)
Record bar := mk_bar {
  bar_date : string;
  bar_current_price : Z;
  bar_volume : Z;
  bar_trading_value : Z;
  bar_start_price : Z;
  bar_high_price : Z;
  bar_low_price : Z;
  bar_prev_day_diff : Z;
  bar_change_rate : option Q
}.

Definition change_rate_int (change_rate : option Q) : Z :=
  match change_rate with
  | Some r => int_of_Q (r * inject_Z 100)%Q
  | None => 0
  end.

(** [UPDATE ... SET ... WHERE date = :date] on one row. *)
Definition update_row (b : bar) (now : Z) (r : DailyRow.t) : DailyRow.t :=
  if String.eqb (DailyRow.date r) (bar_date b)
  then DailyRow.mk (DailyRow.id r) (DailyRow.date r)
         (Some (bar_start_price b)) (Some (bar_high_price b))
         (Some (bar_low_price b)) (Some (bar_current_price b))
         (Some (bar_volume b)) (Some (bar_trading_value b))
         (Some (bar_prev_day_diff b)) (Some (change_rate_int (bar_change_rate b)))
         (Some now)
  else r.

(** The autoincremented primary key of the next inserted row. *)
Definition next_id (rows : list DailyRow.t) : Z :=
  1 + fold_right Z.max 0 (map DailyRow.id rows).

(** [INSERT INTO ... VALUES (...)]. *)
Definition insert_row (b : bar) (now : Z) (rows : list DailyRow.t)
    : list DailyRow.t :=
  rows ++ [DailyRow.mk (next_id rows) (bar_date b)
             (Some (bar_start_price b)) (Some (bar_high_price b))
             (Some (bar_low_price b)) (Some (bar_current_price b))
             (Some (bar_volume b)) (Some (bar_trading_value b))
             (Some (bar_prev_day_diff b)) (Some (change_rate_int (bar_change_rate b)))
             (Some now)].

Definition upsert_rows (b : bar) (now : Z) (rows : list DailyRow.t)
    : list DailyRow.t :=
  let existing :=
    sql_count (filter (fun r => DailyRow.date r = bar_date b) rows) in
  if 0 <? existing then map (update_row b now) rows
  else insert_row b now rows.

Definition add_daily_price_to_stock (d : db) (stock_code : string) (b : bar)
    (now : Z) : bool * db :=
  let (ready, d1) :=
    if negb (check_stock_table_exists d stock_code)
    then prepare_stock_for_collection d stock_code None None now
    else (true, d) in
  if negb ready then (false, d1)
  else
    let table_name := get_stock_table_name stock_code in
    match tables d1 !! table_name with
    | None => (false, d1)
    | Some rows =>
        let d2 := set_tables d1 (<[table_name := upsert_rows b now rows]> (tables d1)) in
        let (_, d3) := update_stock_stats d2 stock_code now in
        (true, d3)
    end.

(** [result[0] if result and result[0] else None]: an empty text is falsy. *)
Definition get_stock_latest_date (d : db) (stock_code : string) : option string :=
  if negb (check_stock_table_exists d stock_code) then None
  else
    match tables d !! get_stock_table_name stock_code with
    | None => None
    | Some rows =>
        match sql_max_text (map DailyRow.date rows) with
        | Some latest => if String.eqb latest "" then None else Some latest
        | None => None
        end
    end.

End EnhancedDatabaseService.

(* ===================================================================== *)
(** * Validator ([data_validator.py]) *)
(* ===================================================================== *)

Inductive severity := PASS | WARNING | ERROR.

(** An f-string: literal text and interpolated values. *)
Inductive msg_part :=
| Text (s : string)
| IntArg (n : Z)
| Fixed1 (q : Q)        (* a float formatted with [:.1f] *)
| ExnArg (e : exn).     (* [str(e)] *)

Inductive detail :=
| DInt (n : Z)
| DNull
| DFloat (q : Q)
| DStr (s : string)
| DStrList (l : list string)
| DDatePrices (l : list (string * option Z))
| DDateCounts (l : list (string * Z)).

Definition DOptInt (o : option Z) : detail :=
  match o with Some v => DInt v | None => DNull end.

Record ValidationResult := mk_result {
  stock_code : string;
  check_type : string;
  status : severity;
  message : list msg_part;
  details : option (list (string * detail))
}.

Module DataQualityValidator.

Import DynamicTableManager.

Definition null_checks : list (string * (DailyRow.t -> option Z) * string) :=
  [("current_price", DailyRow.current_price, "종가가 NULL인 데이터");
   ("volume", DailyRow.volume, "거래량이 NULL인 데이터");
   ("start_price", DailyRow.start_price, "시가가 NULL인 데이터");
   ("high_price", DailyRow.high_price, "고가가 NULL인 데이터");
   ("low_price", DailyRow.low_price, "저가가 NULL인 데이터")].

Definition _check_basic_data_quality (code : string) (rows : list DailyRow.t)
    : list ValidationResult :=
  let total_count := sql_count rows in
  if total_count =? 0 then
    [mk_result code "DATA_COUNT" WARNING [Text "데이터가 없음"]
       (Some [("total_count", DInt 0)])]
  else
    flat_map
      (fun chk =>
         let '(field, col, description) := chk in
         let null_count := sql_count (filter (fun r => is_null (col r) = true) rows) in
         if 0 <? null_count then
           [mk_result code "NULL_DATA" WARNING
              [Text description; Text ": "; IntArg null_count; Text "개"]
              (Some [("field", DStr field); ("null_count", DInt null_count);
                     ("total_count", DInt total_count)])]
         else [])
      null_checks
    ++ [mk_result code "DATA_COUNT" PASS
          [Text "총 "; IntArg total_count; Text "개 데이터 존재"]
          (Some [("total_count", DInt total_count)])].

Definition in_text_list (x : string) (l : list string) : bool :=
  existsb (String.eqb x) l.

Definition _check_missing_trading_days (code : string) (rows : list DailyRow.t)
    : list ValidationResult :=
  let dates := map DailyRow.date rows in
  let failed (e : exn) :=
    [mk_result code "MISSING_TRADING_DAYS" ERROR
       [Text "거래일 체크 실패: "; ExnArg e] None] in
  match sql_min_text dates, sql_max_text dates with
  | Some first_date_str, Some last_date_str =>
      if String.eqb first_date_str "" then []
      else
        let actual_count := sql_count rows in
        match strptime first_date_str, strptime last_date_str with
        | Some first_date, Some last_date =>
            match get_trading_days_between first_date last_date with
            | Returned expected_trading_days =>
                let expected_count := sql_count expected_trading_days in
                let missing_count := expected_count - actual_count in
                if 0 <? missing_count then
                  let existing_dates := order_by String.leb dates in
                  let expected_dates := map strftime expected_trading_days in
                  let missing_dates :=
                    filter (fun d => in_text_list d existing_dates = false)
                           expected_dates in
                  let status := if missing_count <=? 5 then WARNING else ERROR in
                  [mk_result code "MISSING_TRADING_DAYS" status
                     [Text "누락된 거래일: "; IntArg missing_count; Text "개"]
                     (Some [("expected_count", DInt expected_count);
                            ("actual_count", DInt actual_count);
                            ("missing_count", DInt missing_count);
                            ("missing_dates", DStrList (firstn 10 missing_dates));
                            ("date_range",
                             DStr (first_date_str +:+ " ~ " +:+ last_date_str))])]
                else
                  [mk_result code "MISSING_TRADING_DAYS" PASS
                     [Text "거래일 데이터 완전함 ("; IntArg actual_count; Text "개)"]
                     (Some [("expected_count", DInt expected_count);
                            ("actual_count", DInt actual_count)])]
            | Raised e => failed e
            | OutOfFuel => []
            end
        | _, _ => failed ValueError
        end
  | _, _ => []
  end.

(** [WHERE current_price < :low_threshold OR current_price > :high_threshold];
    a null price satisfies neither comparison. *)
Definition is_anomaly (low high : Q) (r : DailyRow.t) : bool :=
  match DailyRow.current_price r with
  | Some p => Qlt_bool (inject_Z p) low || Qlt_bool high (inject_Z p)
  | None => false
  end.

Definition date_desc (a b : DailyRow.t) : bool :=
  String.leb (DailyRow.date b) (DailyRow.date a).

Definition _check_price_anomalies (code : string) (rows : list DailyRow.t)
    : list ValidationResult :=
  let priced := column_where DailyRow.current_price
                  (fun r => positive (DailyRow.current_price r)) rows in
  match sql_avg priced with
  | None => []
  | Some avg_price =>
      let min_price := sql_min_int priced in
      let max_price := sql_max_int priced in
      let anomaly_threshold_low := (avg_price * (1 # 2))%Q in
      let anomaly_threshold_high := (avg_price * inject_Z 3)%Q in
      let anomalies :=
        firstn 10
          (order_by date_desc
             (filter (fun r => is_anomaly anomaly_threshold_low
                                 anomaly_threshold_high r = true) rows)) in
      let zero_count :=
        sql_count (filter (fun r => zero_or_null (DailyRow.current_price r) = true)
                          rows) in
      (if negb (bool_decide (anomalies = [])) then
         [mk_result code "PRICE_ANOMALIES" WARNING
            [Text "가격 이상값 "; IntArg (sql_count anomalies); Text "개 발견"]
            (Some [("avg_price", DInt (int_of_Q avg_price));
                   ("anomalies",
                    DDatePrices
                      (map (fun r => (DailyRow.date r, DailyRow.current_price r))
                           anomalies));
                   ("threshold_low", DInt (int_of_Q anomaly_threshold_low));
                   ("threshold_high", DInt (int_of_Q anomaly_threshold_high))])]
       else [])
      ++ (if 0 <? zero_count then
            [mk_result code "ZERO_PRICE" ERROR
               [Text "0원 또는 NULL 가격 데이터: "; IntArg zero_count; Text "개"]
               (Some [("zero_count", DInt zero_count)])]
          else [])
      ++ (if bool_decide (anomalies = []) && (zero_count =? 0) then
            [mk_result code "PRICE_QUALITY" PASS [Text "가격 데이터 품질 양호"]
               (Some [("avg_price", DInt (int_of_Q avg_price));
                      ("min_price", DOptInt min_price);
                      ("max_price", DOptInt max_price)])]
          else [])
  end.

Definition _check_volume_data (code : string) (rows : list DailyRow.t)
    : list ValidationResult :=
  let zero_volume_count :=
    sql_count (filter (fun r => zero_or_null (DailyRow.volume r) = true) rows) in
  let avg_volume :=
    sql_avg (column_where DailyRow.volume
               (fun r => positive (DailyRow.volume r)) rows) in
  let total_count := sql_count rows in
  if 0 <? zero_volume_count then
    let zero_ratio :=
      (inject_Z zero_volume_count / inject_Z total_count * inject_Z 100)%Q in
    let status := if Qlt_bool zero_ratio (inject_Z 10) then WARNING else ERROR in
    [mk_result code "ZERO_VOLUME" status
       [Text "거래량 0인 데이터: "; IntArg zero_volume_count; Text "개 (";
        Fixed1 zero_ratio; Text "%)"]
       (Some [("zero_count", DInt zero_volume_count);
              ("total_count", DInt total_count);
              ("zero_ratio", DFloat zero_ratio)])]
  else
    [mk_result code "VOLUME_QUALITY" PASS [Text "거래량 데이터 양호"]
       (Some [("avg_volume",
               DInt (match avg_volume with
                     | Some a => int_of_Q a
                     | None => 0
                     end))])].

(** [SELECT date, COUNT( * ) ... GROUP BY date HAVING COUNT( * ) > 1
    ORDER BY date DESC]. *)
Definition group_by_date (rows : list DailyRow.t) : list (string * Z) :=
  let dates := map DailyRow.date rows in
  map (fun d => (d, Z.of_nat (count_occ string_dec dates d)))
      (nodup string_dec dates).

Definition duplicate_query (rows : list DailyRow.t) : list (string * Z) :=
  order_by (fun a b => String.leb (fst b) (fst a))
    (filter (fun g => 1 < snd g) (group_by_date rows)).

Definition _check_duplicate_dates (code : string) (rows : list DailyRow.t)
    : list ValidationResult :=
  let duplicates := duplicate_query rows in
  if negb (bool_decide (duplicates = [])) then
    let total_duplicates := sum_Z (map (fun row => snd row - 1) duplicates) in
    [mk_result code "DUPLICATE_DATES" ERROR
       [Text "중복 날짜 데이터: "; IntArg (sql_count duplicates);
        Text "개 날짜, 총 "; IntArg total_duplicates; Text "개 중복"]
       (Some [("duplicate_dates", DDateCounts (firstn 10 duplicates));
              ("total_duplicate_records", DInt total_duplicates)])]
  else
    [mk_result code "DUPLICATE_DATES" PASS [Text "중복 날짜 없음"] None].

(** The rows that a query on the stock's table reads. *)
Definition table_rows (d : db) (code : string) : list DailyRow.t :=
  default [] (tables d !! get_stock_table_name code).

Definition validate_stock_data (d : db) (code : string)
    : list ValidationResult :=
  if negb (check_stock_table_exists d code) then
    [mk_result code "TABLE_EXISTS" ERROR [Text "종목 테이블이 존재하지 않음"] None]
  else
    let rows := table_rows d code in
    _check_basic_data_quality code rows
    ++ _check_missing_trading_days code rows
    ++ _check_price_anomalies code rows
    ++ _check_volume_data code rows
    ++ _check_duplicate_dates code rows.

(** The insertion-ordered dictionary stock code -> results. *)
Definition validate_all_stocks (d : db) : list (string * list ValidationResult) :=
  let active_stocks := StockMetadataManager.get_all_active_stocks d in
  match active_stocks with
  | [] => []
  | _ =>
      map (fun stock_info =>
             let code := StockMetadataManager.info_code stock_info in
             (code, validate_stock_data d code))
          active_stocks
  end.

End DataQualityValidator.

Import DataQualityValidator.

(* ===================================================================== *)
(** * Collector ([daily_price.py]) *)
(* ===================================================================== *)

Module EnhancedDailyPriceCollector.

Import StockMetadataManager EnhancedDatabaseService.

(** ** Text fields of a chart response

    Python text is modelled as a string of ASCII characters, the
    characters the numeric fields of a response are made of; the statements
    about these functions are about ASCII text. *)

(** [c.isspace()] on an ASCII character: TAB .. CR, FS .. US and the space. *)
Definition isspace (c : ascii) : bool :=
  let n := Z.of_N (N_of_ascii c) in
  ((9 <=? n) && (n <=? 13)) || ((28 <=? n) && (n <=? 32)).

(** The white space that [int] skips on ASCII text: TAB .. CR and the space. *)
Definition int_isspace (c : ascii) : bool :=
  let n := Z.of_N (N_of_ascii c) in
  ((9 <=? n) && (n <=? 13)) || (n =? 32).

Fixpoint lstrip (space : ascii -> bool) (cs : list ascii) : list ascii :=
  match cs with
  | c :: cs' => if space c then lstrip space cs' else cs
  | [] => []
  end.

Definition strip_chars (space : ascii -> bool) (cs : list ascii) : list ascii :=
  rev (lstrip space (rev (lstrip space cs))).

(** [s.strip()] *)
Definition strip (s : string) : string :=
  string_of_list_ascii (strip_chars isspace (list_ascii_of_string s)).

(** [s.replace(c, '')] for a one-character [c]. *)
Definition remove_char (c : ascii) (cs : list ascii) : list ascii :=
  List.filter (fun x => negb (Ascii.eqb x c)) cs.

(** The digits of an [int] literal in base 10: decimal digits, with single
    underscores allowed between two digits. *)
Fixpoint int_digits (after_digit : bool) (acc : Z) (cs : list ascii)
    : option Z :=
  match cs with
  | [] => if after_digit then Some acc else None
  | c :: cs' =>
      if Ascii.eqb c "_"
      then if after_digit then int_digits false acc cs' else None
      else match digit_of_ascii c with
           | Some v => int_digits true (acc * 10 + v) cs'
           | None => None
           end
  end.

(** [int(s)]; [None] is the [ValueError].  (CPython from 3.11 on also
    refuses texts of more than 4300 digits; the statements below keep to
    shorter ones.) *)
Definition py_int (cs : list ascii) : option Z :=
  match strip_chars int_isspace cs with
  | [] => None
  | c :: digits =>
      if Ascii.eqb c "+" then int_digits false 0 digits
      else if Ascii.eqb c "-"
           then option_map Z.opp (int_digits false 0 digits)
           else int_digits false 0 (c :: digits)
  end.

Definition _clean_and_convert_to_int (value : string) : Z :=
  if String.eqb value "" then 0
  else
    let cleaned :=
      strip_chars isspace
        (remove_char "," (remove_char "-" (remove_char "+"
           (list_ascii_of_string value)))) in
    match cleaned with
    | [] => 0
    | _ => match py_int cleaned with
           | Some n => n
           | None => 0
           end
    end.

Definition TR_CODE : string := "opt10081".

(** [response['data']]: the [parsed] flag and the rows; a row maps field
    names to text.  A missing key reads as [False], respectively [[]]. *)
Record data_info := mk_data_info {
  data_parsed : bool;
  data_raw_data : list (gmap string string)
}.

Record response := mk_response {
  resp_tr_code : option string;
  resp_data : option data_info;
  resp_prev_next : option string
}.

(** [row_data.get(key, "").strip()] *)
Definition row_field (row_data : gmap string string) (key : string) : string :=
  strip (default "" (row_data !! key)).

(** The body of the loop over the rows; [None] is [continue]. *)
Definition parse_row (row_data : gmap string string) : option bar :=
  let date := row_field row_data "일자" in
  let current_price := row_field row_data "현재가" in
  let volume := row_field row_data "거래량" in
  let trading_value := row_field row_data "거래대금" in
  let start_price := row_field row_data "시가" in
  let high_price := row_field row_data "고가" in
  let low_price := row_field row_data "저가" in
  if String.eqb date "" || String.eqb current_price "" then None
  else
    let current_price_int := _clean_and_convert_to_int current_price in
    let volume_int := _clean_and_convert_to_int volume in
    let trading_value_int := _clean_and_convert_to_int trading_value in
    let start_price_int := _clean_and_convert_to_int start_price in
    let high_price_int := _clean_and_convert_to_int high_price in
    let low_price_int := _clean_and_convert_to_int low_price in
    if current_price_int <=? 0 then None
    else Some (mk_bar date current_price_int volume_int trading_value_int
                 start_price_int high_price_int low_price_int 0 (Some 0%Q)).

Definition _parse_daily_data (r : response) (stock_code : string) : list bar :=
  if negb (bool_decide (resp_tr_code r = Some TR_CODE)) then []
  else
    match resp_data r with
    | None => []
    | Some info =>
        if negb (data_parsed info) then []
        else
          match data_raw_data info with
          | [] => []
          | raw_data => omap parse_row raw_data
          end
    end.

(** The [for data in daily_data] loop; every call of
    [add_daily_price_to_stock] comes with its clock reading. *)
Fixpoint save_loop (d : db) (stock_code : string) (daily_data : list (bar * Z))
    (saved_count : Z) : Z * db :=
  match daily_data with
  | [] => (saved_count, d)
  | (data, now) :: rest =>
      let (success, d1) := add_daily_price_to_stock d stock_code data now in
      save_loop d1 stock_code rest
        (if success then saved_count + 1 else saved_count)
  end.

Definition _save_daily_data_to_stock_table (d : db) (stock_code : string)
    (daily_data : list (bar * Z)) : Z * db :=
  save_loop d stock_code daily_data 0.

(** [today] stands for [datetime.now().date()]. *)
Definition _should_skip_update (today : date) (latest_date : string) : bool :=
  match strptime latest_date with
  | None => false
  | Some latest_dt =>
      if today <=? latest_dt then true
      else
        let days_diff := today - latest_dt in
        if weekday today =? 0 then days_diff <=? 3
        else if weekday today =? 6 then days_diff <=? 2
        else days_diff <=? 1
  end.

(** ** Collecting one stock *)

(** What a call of [request_tr_data] does. *)
Inductive tr_reply :=
| TrRaises                       (* the call raises *)
| TrNothing                      (* it returns a falsy response *)
| TrResponse (r : response).

(** The Kiwoom connector, as far as the program uses it.
    [GetMasterCodeName k code] is the name the call returns, with white
    space stripped as its callers do, and [None] when the call raises;
    [GetCodeListByMarket k market] is the text the call returns, [None]
    when it raises; the reply to a TR request may depend on the stock, the
    base date, the number of the request and [prev_next]. *)
Record connector := mk_connector {
  is_connected : bool;
  GetMasterCodeName : string -> option string;
  GetCodeListByMarket : string -> option string;
  request_tr_data : string -> string -> Z -> string -> tr_reply
}.

(** The collector: its connector, its database and its counters. *)
Record collector := mk_collector {
  kiwoom : option connector;
  db_service : db;
  collected_count : Z;
  error_count : Z;
  skipped_count : Z;
  registered_stocks : Z
}.

Definition register_stock_if_needed (c : collector) (stock_code : string)
    (stock_name : option string) (now : Z) : bool * collector :=
  let looked_up :=
    match kiwoom c with
    | Some k =>
        if negb (truthy stock_name)
        then match GetMasterCodeName k stock_code with
             | Some name => Some (Some name)
             | None => None
             end
        else Some stock_name
    | None => Some stock_name
    end in
  match looked_up with
  | None => (false, c)
  | Some stock_name =>
      let (ready, d) :=
        prepare_stock_for_collection (db_service c) stock_code stock_name
          (Some "KOSPI") now in
      if ready
      then (true, mk_collector (kiwoom c) d (collected_count c) (error_count c)
                    (skipped_count c) (registered_stocks c + 1))
      else (false, mk_collector (kiwoom c) d (collected_count c) (error_count c)
                     (skipped_count c) (registered_stocks c))
  end.

(** The request loop, [remaining] requests before [max_requests] is
    reached.  [None]: a request raised; otherwise the bars collected and
    the error counter.  (The pause between two requests is taken to be
    non-negative.) *)
Fixpoint request_loop (k : connector) (stock_code base_date : string)
    (remaining : nat) (request_count : Z) (prev_next : string)
    (collected_data : list bar) (errors : Z) : option (list bar * Z) :=
  match remaining with
  | O => Some (collected_data, errors)
  | S remaining' =>
      match request_tr_data k stock_code base_date request_count prev_next with
      | TrRaises => None
      | TrNothing => Some (collected_data, errors + 1)
      | TrResponse response =>
          match _parse_daily_data response stock_code with
          | [] => Some (collected_data, errors)
          | daily_data =>
              let collected_data := collected_data ++ daily_data in
              let prev_next := default "0" (resp_prev_next response) in
              if negb (String.eqb prev_next "2")
              then Some (collected_data, errors)
              else request_loop k stock_code base_date remaining'
                     (request_count + 1) prev_next collected_data errors
          end
      end
  end.

(** The bars with the clock readings of their writes. *)
Fixpoint stamp (clock : nat -> Z) (i : nat) (bars : list bar) : list (bar * Z) :=
  match bars with
  | [] => []
  | b :: rest => (b, clock i) :: stamp clock (S i) rest
  end.

(** [now] is the clock reading of the registration, [today] the current
    date, [clock i] the reading of the [i]-th write. *)
Definition collect_single_stock (c : collector) (stock_code : string)
    (start_date end_date : option string) (update_existing : bool)
    (now : Z) (today : date) (clock : nat -> Z) : bool * collector :=
  match kiwoom c with
  | None => (false, c)
  | Some k =>
      if negb (is_connected k) then (false, c)
      else
        let (registered, c1) := register_stock_if_needed c stock_code None now in
        if negb registered
        then (false, mk_collector (kiwoom c1) (db_service c1) (collected_count c1)
                       (error_count c1 + 1) (skipped_count c1)
                       (registered_stocks c1))
        else
          let latest_date := get_stock_latest_date (db_service c1) stock_code in
          if negb update_existing
             && match latest_date with
                | Some latest => _should_skip_update today latest
                | None => false
                end
          then (true, mk_collector (kiwoom c1) (db_service c1) (collected_count c1)
                        (error_count c1) (skipped_count c1 + 1)
                        (registered_stocks c1))
          else
            match request_loop k stock_code (or_default end_date "20250701")
                    20 0 "0" [] (error_count c1) with
            | None =>
                (false, mk_collector (kiwoom c1) (db_service c1)
                          (collected_count c1) (error_count c1 + 1)
                          (skipped_count c1) (registered_stocks c1))
            | Some ([], errors) =>
                (false, mk_collector (kiwoom c1) (db_service c1)
                          (collected_count c1) errors
                          (skipped_count c1) (registered_stocks c1))
            | Some (collected_data, errors) =>
                let (saved_count, d) :=
                  _save_daily_data_to_stock_table (db_service c1) stock_code
                    (stamp clock 0 collected_data) in
                (true, mk_collector (kiwoom c1) d
                         (collected_count c1 + saved_count) errors
                         (skipped_count c1) (registered_stocks c1))
            end
  end.

(** ** Collecting several stocks *)

(** The clock readings and the date of one call of [collect_single_stock]. *)
Record call_env := mk_env {
  env_now : Z;
  env_today : date;
  env_clock : nat -> Z
}.

(** The dictionary that [collect_multiple_stocks] returns. *)
Record collection_results := mk_results {
  res_success : list string;
  res_failed : list string;
  res_skipped : list string;
  res_registered : list string;
  res_total_collected : Z;
  res_total_errors : Z;
  res_total_skipped : Z;
  res_total_registered : Z;
  res_validation_results : gmap string (list ValidationResult);
  res_elapsed_time : Q
}.

(** The loop over the stock codes, called without a progress callback;
    [envs idx] belongs to the call for the stock at position [idx].  (The
    pause between two stocks is taken to be non-negative.) *)
Fixpoint collect_loop (c : collector) (stock_codes : list string) (idx : nat)
    (start_date end_date : option string) (update_existing validate_data : bool)
    (envs : nat -> call_env) (results : collection_results)
    : collection_results * collector :=
  match stock_codes with
  | [] => (results, c)
  | stock_code :: rest =>
      let (success, c1) :=
        collect_single_stock c stock_code start_date end_date update_existing
          (env_now (envs idx)) (env_today (envs idx)) (env_clock (envs idx)) in
      let results1 :=
        if success
        then mk_results (res_success results ++ [stock_code]) (res_failed results)
               (res_skipped results) (res_registered results)
               (res_total_collected results) (res_total_errors results)
               (res_total_skipped results) (res_total_registered results)
               (res_validation_results results) (res_elapsed_time results)
        else mk_results (res_success results) (res_failed results ++ [stock_code])
               (res_skipped results) (res_registered results)
               (res_total_collected results) (res_total_errors results)
               (res_total_skipped results) (res_total_registered results)
               (res_validation_results results) (res_elapsed_time results) in
      let results2 :=
        if validate_data && success
        then mk_results (res_success results1) (res_failed results1)
               (res_skipped results1) (res_registered results1)
               (res_total_collected results1) (res_total_errors results1)
               (res_total_skipped results1) (res_total_registered results1)
               (<[stock_code := validate_stock_data (db_service c1) stock_code]>
                  (res_validation_results results1))
               (res_elapsed_time results1)
        else results1 in
      collect_loop c1 rest (S idx) start_date end_date update_existing
        validate_data envs results2
  end.

(** [elapsed] is the time the whole call takes, in seconds. *)
Definition collect_multiple_stocks (c : collector) (stock_codes : list string)
    (start_date end_date : option string) (update_existing validate_data : bool)
    (envs : nat -> call_env) (elapsed : Q) : collection_results * collector :=
  let c0 := mk_collector (kiwoom c) (db_service c) 0 0 0 0 in
  let results := mk_results [] [] [] [] 0 0 0 0 ∅ 0%Q in
  let (results, c1) :=
    collect_loop c0 stock_codes 0 start_date end_date update_existing
      validate_data envs results in
  (mk_results (res_success results) (res_failed results) (res_skipped results)
     (res_registered results) (collected_count c1) (error_count c1)
     (skipped_count c1) (registered_stocks c1) (res_validation_results results)
     elapsed, c1).





End EnhancedDailyPriceCollector.

Module KiwoomStockManager.

Import StockMetadataManager EnhancedDailyPriceCollector.

(** [self.MARKET_CODES.get(market_code)] *)
Definition MARKET_CODES (market_code : string) : option string :=
  if String.eqb market_code "0" then Some "KOSPI"
  else if String.eqb market_code "10" then Some "KOSDAQ"
  else if String.eqb market_code "3" then Some "ELW"
  else if String.eqb market_code "8" then Some "ETF"
  else if String.eqb market_code "50" then Some "KONEX"
  else None.

(** An entry of a stock list: the keys [code], [name] and [market]. *)
Record stock_entry := mk_entry {
  entry_code : string;
  entry_name : string;
  entry_market : string
}.

(** [s.split(sep)] for a one-character [sep], on the characters. *)
Fixpoint split_on (sep : ascii) (cs : list ascii) : list (list ascii) :=
  match cs with
  | [] => [[]]
  | c :: cs' =>
      if Ascii.eqb c sep then [] :: split_on sep cs'
      else match split_on sep cs' with
           | piece :: pieces => (c :: piece) :: pieces
           | [] => [[c]]
           end
  end.

Definition split (s : string) (sep : ascii) : list string :=
  map string_of_list_ascii (split_on sep (list_ascii_of_string s)).

(** The loop over [stock_codes[:100]]: a stock whose name is empty, or
    whose lookup raises, is left out. *)
Fixpoint stock_list_loop (k : connector) (market : string)
    (stock_codes : list string) : list stock_entry :=
  match stock_codes with
  | [] => []
  | stock_code :: rest =>
      match GetMasterCodeName k stock_code with
      | Some stock_name =>
          if negb (String.eqb stock_name "")
          then mk_entry stock_code stock_name market
                 :: stock_list_loop k market rest
          else stock_list_loop k market rest
      | None => stock_list_loop k market rest
      end
  end.

Definition get_market_stock_list (kiwoom : option connector)
    (market_code : string) : list stock_entry :=
  match kiwoom with
  | None => []
  | Some k =>
      if negb (is_connected k) then []
      else
        match GetCodeListByMarket k market_code with
        | None => []
        | Some code_list =>
            if String.eqb code_list "" then []
            else
              let stock_codes :=
                List.filter (fun code => negb (String.eqb code ""))
                  (map strip (split code_list ";")) in
              stock_list_loop k (default "UNKNOWN" (MARKET_CODES market_code))
                (firstn 100 stock_codes)
        end
  end.

(** The dictionary that [register_all_stocks_to_db] returns. *)
Record register_result := mk_register_result {
  reg_success : Z;
  reg_failed : Z;
  reg_total : option Z;
  reg_error : option string
}.

(** The loop over the stock list; [clock i] is the clock reading of the
    [i]-th registration. *)
Fixpoint register_loop (d : db) (stock_list : list stock_entry)
    (clock : nat -> Z) (i : nat) (success_count failed_count : Z)
    : Z * Z * db :=
  match stock_list with
  | [] => (success_count, failed_count, d)
  | stock_info :: rest =>
      let (ok, d1) :=
        register_stock d (entry_code stock_info) (Some (entry_name stock_info))
          (Some (entry_market stock_info)) (clock i) in
      if ok then register_loop d1 rest clock (S i) (success_count + 1) failed_count
      else register_loop d1 rest clock (S i) success_count (failed_count + 1)
  end.

(** [register_all_stocks_to_db] on a stock list that the caller passes. *)
Definition register_all_stocks_to_db (d : db) (stock_list : list stock_entry)
    (clock : nat -> Z) : register_result * db :=
  match stock_list with
  | [] => (mk_register_result 0 0 None (Some "종목 리스트가 비어있음"), d)
  | _ =>
      let '(success_count, failed_count, d1) :=
        register_loop d stock_list clock 0 0 0 in
      (mk_register_result success_count failed_count
         (Some (sql_count stock_list)) None, d1)
  end.

End KiwoomStockManager.

(* ===================================================================== *)
(** * Vocabulary of the statements, and sample data *)
(* ===================================================================== *)

Definition empty_db : db := mk_db ∅ ∅ ∅.








Definition zero_price_rows (rows : list DailyRow.t) : list DailyRow.t :=
  filter (fun r => zero_or_null (DailyRow.current_price r) = true) rows.

(** A row that only carries a date and a close price. *)
Definition price_row (date : string) (p : option Z) : DailyRow.t :=
  DailyRow.mk 0 date None None None p None None None None None.



(** The trading days of [first .. last], in ascending order. *)
Definition expected_trading_days (first_date last_date : date) : list date :=
  List.filter is_trading_day (seqZ first_date (last_date - first_date + 1)).

(** A row that only carries a date. *)
Definition dated_row (id : Z) (date : string) : DailyRow.t :=
  DailyRow.mk id date (Some 100) (Some 110) (Some 90) (Some 105) (Some 1000)
    (Some 105000) (Some 0) (Some 0) None.





Definition sample_bar (date : string) (close : Z) : EnhancedDatabaseService.bar :=
  EnhancedDatabaseService.mk_bar date close 1000 (close * 1000) close close close
    0 (Some 0%Q).



(** The store after one bar of 2025-01-02 was written for 005930. *)
Definition one_bar_db : db :=
  snd (EnhancedDatabaseService.add_daily_price_to_stock empty_db "005930"
         (sample_bar "20250102" 100) 1).

(** The dates from [today] back to 2020-01-01, most recent first. *)
Definition days_back (today : date) : list date :=
  rev (seqZ recent_epoch (today - recent_epoch + 1)).

(** Every registry row is stored under its own code (the primary key). *)
Definition registry_wf (d : db) : Prop :=
  map_Forall (fun code stock => Stock.code stock = code) (stocks d).

(** The codes that [get_all_active_stocks] lists. *)
Definition active_codes (d : db) : list string :=
  map StockMetadataManager.info_code (StockMetadataManager.get_all_active_stocks d).



(** The characters that [_clean_and_convert_to_int] deletes. *)
Definition is_separator (c : ascii) : bool :=
  Ascii.eqb c "+" || Ascii.eqb c "-" || Ascii.eqb c ",".

(** Text made of ASCII characters only. *)
Definition ascii_text (s : string) : Prop :=
  forallb (fun c => (N_of_ascii c <? 128)%N) (list_ascii_of_string s) = true.

Definition ascii_row (row : gmap string string) : Prop :=
  map_Forall (fun _ value => ascii_text value) row.

(** The rows a response carries. *)
Definition response_rows (r : EnhancedDailyPriceCollector.response)
    : list (gmap string string) :=
  match EnhancedDailyPriceCollector.resp_data r with
  | Some info => EnhancedDailyPriceCollector.data_raw_data info
  | None => []
  end.

(** The bar that [_parse_daily_data] makes of a row it keeps. *)
Definition bar_of_row (row : gmap string string) : EnhancedDatabaseService.bar :=
  let number key :=
    EnhancedDailyPriceCollector._clean_and_convert_to_int
      (EnhancedDailyPriceCollector.row_field row key) in
  EnhancedDatabaseService.mk_bar
    (EnhancedDailyPriceCollector.row_field row "일자")
    (number "현재가") (number "거래량") (number "거래대금")
    (number "시가") (number "고가") (number "저가") 0 (Some 0%Q).

(** A response with one row, the close marked as a fall. *)
Definition sample_chart_row : gmap string string :=
  <["일자" := " 20250102 "]> (<["현재가" := "-70,500"]> ∅).

Definition sample_response : EnhancedDailyPriceCollector.response :=
  EnhancedDailyPriceCollector.mk_response
    (Some EnhancedDailyPriceCollector.TR_CODE)
    (Some (EnhancedDailyPriceCollector.mk_data_info true [sample_chart_row]))
    None.

(** The connector answers TR requests with rows of ASCII text. *)
Definition ascii_replies (k : EnhancedDailyPriceCollector.connector) : Prop :=
  forall code base n prev_next r,
    EnhancedDailyPriceCollector.request_tr_data k code base n prev_next
    = EnhancedDailyPriceCollector.TrResponse r ->
    List.Forall ascii_row (response_rows r).

(** The collector has a connector, and it is logged in. *)
Definition connected (c : EnhancedDailyPriceCollector.collector) : bool :=
  match EnhancedDailyPriceCollector.kiwoom c with
  | Some k => EnhancedDailyPriceCollector.is_connected k
  | None => false
  end.

(** A connector that answers every request with the sample response. *)
Definition sample_connector : EnhancedDailyPriceCollector.connector :=
  EnhancedDailyPriceCollector.mk_connector true (fun _ => Some "삼성전자")
    (fun _ => Some "005930;000660;")
    (fun _ _ _ _ => EnhancedDailyPriceCollector.TrResponse sample_response).

Definition sample_collector : EnhancedDailyPriceCollector.collector :=
  EnhancedDailyPriceCollector.mk_collector (Some sample_connector) empty_db
    0 0 0 0.

(** Every call gets the same clock readings and date. *)
Definition sample_envs (idx : nat) : EnhancedDailyPriceCollector.call_env :=
  EnhancedDailyPriceCollector.mk_env 1 739253 (fun _ => 2).

(** [new] carries the collection progress of [old]: registering again
    only touches name, market and modification time. *)
Definition keeps_progress (old new : Stock.t) : Prop :=
  Stock.code new = Stock.code old
  /\ Stock.table_created new = Stock.table_created old
  /\ Stock.last_updated new = Stock.last_updated old
  /\ Stock.data_count new = Stock.data_count old
  /\ Stock.first_date new = Stock.first_date old
  /\ Stock.latest_date new = Stock.latest_date old
  /\ Stock.is_active new = Stock.is_active old
  /\ Stock.created_at new = Stock.created_at old.

(** The row of a stock that was registered and never collected. *)
Definition newly_registered (code : string) (s : Stock.t) : Prop :=
  Stock.code s = code
  /\ Stock.table_created s = false
  /\ Stock.last_updated s = None
  /\ Stock.data_count s = Some 0
  /\ Stock.first_date s = None
  /\ Stock.latest_date s = None
  /\ Stock.is_active s = true.

Definition sample_stock (code : string) (created : bool) (count : option Z)
    : Stock.t :=
  Stock.mk code code None created None count None None true None None.

Definition sample_registry : db :=
  mk_db (<["005930" := sample_stock "005930" true (Some 3)]>
           (<["000660" := sample_stock "000660" false None]> ∅)) ∅ ∅.


(* ===================================================================== *)
(** * Properties of the trading calendar *)
(* ===================================================================== *)

Section CalendarFacts.



(** The fuel given by [get_trading_days_between] is never exhausted: the
    call returns a list or raises. *)
Lemma trading_days_loop_fuel (fuel : nat) :
  forall current_date end_date acc,
    (Z.to_nat (end_date - current_date + 1) < fuel)%nat ->
    trading_days_loop fuel current_date end_date acc <> OutOfFuel.
Proof.
  induction fuel as [|fuel IH]; intros cur e acc Hfuel; [lia|].
  simpl. destruct (Z.leb_spec cur e) as [Hle|Hgt]; [|discriminate].
  unfold add_days.
  destruct ((0 <? cur + 1) && (cur + 1 <=? MAXORDINAL)); [|discriminate].
  apply IH. lia.
Qed.

Lemma get_trading_days_between_total (a b : date) :
  get_trading_days_between a b <> OutOfFuel.
Proof. apply trading_days_loop_fuel. lia. Qed.



End CalendarFacts.




(* ===================================================================== *)
(** * Facts about the SQL layer *)
(* ===================================================================== *)

Section SqlFacts.






Lemma sql_count_nonneg {A} (l : list A) : 0 <= sql_count l.
Proof. unfold sql_count. lia. Qed.



End SqlFacts.

(* ===================================================================== *)
(** * The table-existence gate of [validate_stock_data] *)
(* ===================================================================== *)

(** C4: when the stock's physical table does not exist,
    [validate_stock_data] returns exactly one result, of check type
    [TABLE_EXISTS] and severity [ERROR]; no other check contributes. *)
Theorem C4_missing_table_short_circuits (d : db) (code : string) :
  DynamicTableManager.check_stock_table_exists d code = false ->
  exists r,
    validate_stock_data d code = [r]
    /\ check_type r = "TABLE_EXISTS"
    /\ status r = ERROR
    /\ stock_code r = code
    /\ length (validate_stock_data d code) = 1%nat.
Proof.
  intros H. unfold validate_stock_data. rewrite H. simpl.
  eexists. repeat split.
Qed.

Lemma C4_missing_table_short_circuits_witness :
  DynamicTableManager.check_stock_table_exists empty_db "005930" = false
  /\ exists r,
       validate_stock_data empty_db "005930" = [r]
       /\ check_type r = "TABLE_EXISTS"
       /\ status r = ERROR
       /\ stock_code r = "005930"
       /\ length (validate_stock_data empty_db "005930") = 1%nat.
Proof.
  split; [reflexivity|].
  apply (C4_missing_table_short_circuits empty_db "005930"). reflexivity.
Defined.

(* ===================================================================== *)
(** * Volume check *)
(* ===================================================================== *)

Section VolumeCheck.


End VolumeCheck.



(* ===================================================================== *)
(** * Collection status of the registry *)
(* ===================================================================== *)

Section CollectionStatus.

Import StockMetadataManager.

(** The active stocks are the registry rows flagged [is_active]. *)
Lemma active_stocks_spec (d : db) (s : Stock.t) :
  In s (active_stocks d)
  <-> (exists code, stocks d !! code = Some s) /\ Stock.is_active s = true.
Proof.
  unfold active_stocks.
  rewrite <- list_elem_of_In, list_elem_of_filter, list_elem_of_fmap.
  split.
  - intros [Ha ([code s'] & -> & Hin)]. split; [|exact Ha].
    exists code. apply elem_of_map_to_list. exact Hin.
  - intros [[code Hc] Ha]. split; [exact Ha|].
    exists (code, s). split; [reflexivity|].
    apply elem_of_map_to_list. exact Hc.
Qed.

Lemma active_stocks_empty (d : db) :
  stocks d = ∅ -> active_stocks d = [].
Proof.
  intros H. unfold active_stocks. rewrite H, map_to_list_empty. reflexivity.
Qed.

End CollectionStatus.



(* ===================================================================== *)
(** * Price check *)
(* ===================================================================== *)

Section PriceCheck.











End PriceCheck.




(** The same early return on a non-empty table: a table whose only row has
    close 0 holds a zero-price row, and no [ZERO_PRICE] result is emitted. *)
Lemma price_check_all_zero_table :
  sql_count (zero_price_rows [price_row "20250102" (Some 0)]) = 1
  /\ _check_price_anomalies "005930" [price_row "20250102" (Some 0)] = [].
Proof. split; reflexivity. Qed.



(* ===================================================================== *)
(** * Duplicate-date check *)
(* ===================================================================== *)

Section DuplicateCheck.









Lemma NoDup_map_fst_filter {A B} (P : A * B -> Prop)
    `{!forall x, Decision (P x)} (l : list (A * B)) :
  List.NoDup (map fst l) -> List.NoDup (map fst (filter P l)).
Proof.
  induction l as [|x l IH]; [intros _; constructor|].
  intros Hnd. inversion Hnd as [|? ? Hx Hl]; subst.
  rewrite filter_cons. destruct (decide (P x)); [|apply IH; exact Hl].
  simpl. constructor; [|apply IH; exact Hl].
  intros Hin. apply Hx. apply in_map_iff in Hin as (y & Hy & Hin).
  apply in_map_iff. exists y. split; [exact Hy|].
  apply list_elem_of_In in Hin. apply list_elem_of_filter in Hin as [_ Hin].
  apply list_elem_of_In. exact Hin.
Qed.





End DuplicateCheck.



(* ===================================================================== *)
(** * Missing-trading-days check *)
(* ===================================================================== *)

Section MissingDays.









End MissingDays.



(** A stored date that does not parse turns the check into an [ERROR]
    result carrying the [ValueError]. *)
Lemma missing_days_malformed_date :
  _check_missing_trading_days "005930" [dated_row 1 "garbage"] =
    [mk_result "005930" "MISSING_TRADING_DAYS" ERROR
       [Text "거래일 체크 실패: "; ExnArg ValueError] None].
Proof. reflexivity. Qed.

(** A table whose greatest date is 9999-12-31 turns it into an [ERROR]
    result carrying the [OverflowError] of the calendar loop. *)
Lemma missing_days_date_max :
  _check_missing_trading_days "005930" [dated_row 1 "99991231"] =
    [mk_result "005930" "MISSING_TRADING_DAYS" ERROR
       [Text "거래일 체크 실패: "; ExnArg OverflowError] None].
Proof. vm_compute. reflexivity. Qed.


(* ===================================================================== *)
(** * Ordering of the stored dates *)
(* ===================================================================== *)

Section TextOrder.

Lemma ascii_compare_lt_trans (x y z : ascii) :
  Ascii.compare x y = Lt -> Ascii.compare y z = Lt -> Ascii.compare x z = Lt.
Proof.
  unfold Ascii.compare. rewrite !N.compare_lt_iff. lia.
Qed.

(** Byte-wise comparison of text is transitive. *)
Lemma string_leb_trans (a : string) :
  forall b c, String.leb a b = true -> String.leb b c = true ->
              String.leb a c = true.
Proof.
  unfold String.leb.
  induction a as [|x a IH]; intros [|y b] [|z c]; simpl; try congruence.
  destruct (Ascii.compare x y) eqn:Exy; try congruence.
  - apply Ascii.compare_eq_iff in Exy. subst y.
    destruct (Ascii.compare x z); try congruence. apply IH.
  - destruct (Ascii.compare y z) eqn:Eyz; try congruence.
    + apply Ascii.compare_eq_iff in Eyz. subst z. rewrite Exy. congruence.
    + rewrite (ascii_compare_lt_trans _ _ _ Exy Eyz). congruence.
Qed.

Lemma string_leb_refl (a : string) : String.leb a a = true.
Proof.
  destruct (String.leb_total a a); assumption.
Qed.


Lemma sql_max_text_none (l : list string) : sql_max_text l = None -> l = [].
Proof.
  destruct l as [|x l]; [reflexivity|]. simpl.
  destruct (sql_max_text l); discriminate.
Qed.


(** [MAX(date)] is a stored date that precedes no stored date. *)
Lemma sql_max_text_spec (l : list string) (m : string) :
  sql_max_text l = Some m ->
  In m l /\ forall x, In x l -> String.leb x m = true.
Proof.
  revert m. induction l as [|y l IH]; intros m; [discriminate|].
  simpl. destruct (sql_max_text l) as [m'|] eqn:E.
  - destruct (IH m' eq_refl) as [Hin Hle].
    intros H. injection H as <-.
    destruct (String.leb m' y) eqn:Ey.
    + split; [left; reflexivity|].
      intros x [<-|Hx]; [apply string_leb_refl|].
      apply (string_leb_trans _ m'); [apply Hle; exact Hx|exact Ey].
    + split; [right; exact Hin|].
      intros x [<-|Hx]; [|apply Hle; exact Hx].
      destruct (String.leb_total m' y) as [H|H]; [congruence|exact H].
  - intros H. injection H as <-. apply sql_max_text_none in E. subst l.
    split; [left; reflexivity|].
    intros x [<-|[]]. apply string_leb_refl.
Qed.

End TextOrder.

(* ===================================================================== *)
(** * Table lifecycle and the upsert path *)
(* ===================================================================== *)

Section TableLifecycle.

Import DynamicTableManager StockMetadataManager EnhancedDatabaseService.

Lemma check_stock_table_exists_true (d : db) (code : string) :
  check_stock_table_exists d code = true
  <-> exists rows, tables d !! get_stock_table_name code = Some rows.
Proof.
  unfold check_stock_table_exists. rewrite bool_decide_eq_true. reflexivity.
Qed.

Lemma check_stock_table_exists_false (d : db) (code : string) :
  check_stock_table_exists d code = false
  <-> tables d !! get_stock_table_name code = None.
Proof.
  unfold check_stock_table_exists. rewrite bool_decide_eq_false.
  rewrite <- eq_None_not_Some. reflexivity.
Qed.



(** A table dropped by this process cannot be created again by it: its
    name is still defined in [self.metadata]. *)
Lemma create_after_drop_fails :
  let d1 := snd (create_stock_daily_table empty_db "005930") in
  let d2 := snd (drop_stock_table d1 "005930") in
  check_stock_table_exists d2 "005930" = false
  /\ fst (create_stock_daily_table d2 "005930") = false.
Proof. split; reflexivity. Qed.

Lemma register_stock_spec (d : db) (code : string) (name market : option string)
    (now : Z) :
  fst (register_stock d code name market now) = true
  /\ is_Some (stocks (snd (register_stock d code name market now)) !! code)
  /\ tables (snd (register_stock d code name market now)) = tables d
  /\ metadata (snd (register_stock d code name market now)) = metadata d.
Proof.
  unfold register_stock.
  destruct (stocks d !! code); cbn [fst snd set_stocks stocks tables metadata];
    (split; [reflexivity|]); (split; [|split; reflexivity]);
    rewrite lookup_insert_eq; eexists; reflexivity.
Qed.

Lemma mark_table_created_frame (d : db) (code : string) (now : Z) :
  tables (snd (mark_table_created d code now)) = tables d
  /\ (is_Some (stocks d !! code) ->
      is_Some (stocks (snd (mark_table_created d code now)) !! code)).
Proof.
  unfold mark_table_created.
  destruct (stocks d !! code) eqn:E; cbn [snd set_stocks stocks tables].
  - split; [reflexivity|]. intros _. rewrite lookup_insert_eq. eexists; reflexivity.
  - split; [reflexivity|]. rewrite E. tauto.
Qed.

(** [update_stock_stats] on a registered stock whose table exists. *)
Lemma update_stock_stats_result (d : db) (code : string) (now : Z)
    (stock : Stock.t) (rows : list DailyRow.t) :
  stocks d !! code = Some stock ->
  tables d !! get_stock_table_name code = Some rows ->
  update_stock_stats d code now =
    (true,
     set_stocks d
       (<[code :=
            Stock.mk (Stock.code stock) (Stock.name stock) (Stock.market stock)
              (Stock.table_created stock) (Some now) (Some (sql_count rows))
              (if 0 <? sql_count rows
               then sql_min_text (map DailyRow.date rows) else None)
              (if 0 <? sql_count rows
               then sql_max_text (map DailyRow.date rows) else None)
              (Stock.is_active stock) (Stock.created_at stock) (Some now)]>
          (stocks d))).
Proof.
  intros Hs Ht. unfold update_stock_stats.
  unfold get_stock_table_name in Ht. rewrite Hs, Ht. reflexivity.
Qed.

Lemma update_stock_stats_frame (d : db) (code : string) (now : Z) :
  tables (snd (update_stock_stats d code now)) = tables d
  /\ (is_Some (stocks d !! code) ->
      is_Some (stocks (snd (update_stock_stats d code now)) !! code)).
Proof.
  unfold update_stock_stats.
  destruct (stocks d !! code) eqn:E;
    [|split; [reflexivity|cbn [snd]; rewrite E; tauto]].
  destruct (tables d !! ("daily_prices_" +:+ code));
    cbn [snd set_stocks stocks tables].
  - split; [reflexivity|]. intros _. rewrite lookup_insert_eq. eexists; reflexivity.
  - split; [reflexivity|]. rewrite E. tauto.
Qed.

(** The empty minimum and maximum make the guard on the row count of
    [update_stock_stats] immaterial. *)
Lemma guarded_min (rows : list DailyRow.t) :
  (if 0 <? sql_count rows then sql_min_text (map DailyRow.date rows) else None)
  = sql_min_text (map DailyRow.date rows).
Proof. destruct rows; reflexivity. Qed.

Lemma guarded_max (rows : list DailyRow.t) :
  (if 0 <? sql_count rows then sql_max_text (map DailyRow.date rows) else None)
  = sql_max_text (map DailyRow.date rows).
Proof. destruct rows; reflexivity. Qed.

(** ** Rows after an upsert *)








(** ** [add_daily_price_to_stock] *)



End TableLifecycle.

Section UpsertPath.

Import DynamicTableManager StockMetadataManager EnhancedDatabaseService.

Lemma table_rows_lookup (d : db) (code : string) (rows : list DailyRow.t) :
  tables d !! get_stock_table_name code = Some rows -> table_rows d code = rows.
Proof. intros H. unfold table_rows. rewrite H. reflexivity. Qed.



End UpsertPath.





(* ===================================================================== *)
(** * Registry operations *)
(* ===================================================================== *)

Section Registry.

Import DynamicTableManager StockMetadataManager.

(** X1: A second registration, with the same arguments or with no name and no
    market, leaves the row as the first one made it, but for the
    modification time; no other row and no table is touched. *)
Theorem register_stock_again (d : db) (code : string) (name market : option string)
    (t1 t2 : Z) (name2 market2 : option string) :
  (name2 = name \/ name2 = None) ->
  (market2 = market \/ market2 = None) ->
  let d1 := snd (register_stock d code name market t1) in
  let r2 := register_stock d1 code name2 market2 t2 in
  fst r2 = true
  /\ (exists s1 s2,
        stocks d1 !! code = Some s1
        /\ stocks (snd r2) !! code = Some s2
        /\ Stock.code s2 = Stock.code s1
        /\ Stock.name s2 = Stock.name s1
        /\ Stock.market s2 = Stock.market s1
        /\ Stock.table_created s2 = Stock.table_created s1
        /\ Stock.data_count s2 = Stock.data_count s1
        /\ Stock.first_date s2 = Stock.first_date s1
        /\ Stock.latest_date s2 = Stock.latest_date s1
        /\ Stock.last_updated s2 = Stock.last_updated s1
        /\ Stock.is_active s2 = Stock.is_active s1
        /\ Stock.created_at s2 = Stock.created_at s1
        /\ Stock.updated_at s2 = Some t2)
  /\ (forall other, other <> code ->
        stocks (snd r2) !! other = stocks d !! other)
  /\ tables (snd r2) = tables d
  /\ metadata (snd r2) = metadata d.
Proof.
  intros Hname Hmarket d1 r2.
  assert (exists s1, stocks d1 !! code = Some s1
                     /\ tables d1 = tables d /\ metadata d1 = metadata d
                     /\ (forall other, other <> code ->
                           stocks d1 !! other = stocks d !! other)
                     /\ (truthy name = true -> Stock.name s1 = or_default name "")
                     /\ (truthy market = true -> Stock.market s1 = market))
    as (s1 & Hs1 & Ht1 & Hm1 & Ho1 & Hn1 & Hk1).
  { unfold d1, register_stock. destruct (stocks d !! code) as [s|];
      cbn [snd set_stocks stocks tables metadata]; eexists;
      (split; [apply lookup_insert_eq|]); (split; [reflexivity|]);
      (split; [reflexivity|]);
      (split; [intros other Hne; apply lookup_insert_ne; congruence|]);
      cbn [Stock.name Stock.market]; split;
      destruct name as [[|c n]|]; destruct market as [[|c' m]|];
      simpl; try discriminate; reflexivity. }
  unfold r2, register_stock. rewrite Hs1.
  cbn [fst snd set_stocks stocks tables metadata].
  split; [reflexivity|]. split.
  - exists s1. eexists. split; [reflexivity|].
    split; [apply lookup_insert_eq|].
    cbn [Stock.code Stock.name Stock.market Stock.table_created Stock.data_count
         Stock.first_date Stock.latest_date Stock.last_updated Stock.is_active
         Stock.created_at Stock.updated_at].
    repeat split.
    + destruct Hname as [->| ->]; [|reflexivity].
      destruct name as [[|c n]|]; try reflexivity.
      rewrite (Hn1 eq_refl). reflexivity.
    + destruct Hmarket as [->| ->]; [|reflexivity].
      destruct (truthy market) eqn:E; [|reflexivity].
      symmetry. apply Hk1. reflexivity.
  - split; [|split; assumption].
    intros other Hne. rewrite lookup_insert_ne by congruence. apply Ho1. exact Hne.
Qed.

Lemma register_stock_again_witness :
  let d1 := snd (register_stock empty_db "005930" (Some "Samsung") (Some "KOSPI") 1) in
  exists s2,
    stocks (snd (register_stock d1 "005930" None None 2)) !! "005930" = Some s2
    /\ Stock.name s2 = "Samsung"
    /\ Stock.market s2 = Some "KOSPI".
Proof.
  intros d1.
  destruct (register_stock_again empty_db "005930" (Some "Samsung") (Some "KOSPI")
              1 2 None None (or_intror eq_refl) (or_intror eq_refl))
    as (_ & (s1 & s2 & Hs1 & Hs2 & _ & Hn & Hm & _) & _).
  exists s2. split; [exact Hs2|].
  vm_compute in Hs1. injection Hs1 as <-.
  split; [exact Hn|exact Hm].
Defined.

(** X2: On a code that is not registered, [mark_table_created] and
    [update_stock_stats] return [False] and change nothing; so does
    [update_stock_stats] on a registered stock that has no table. *)
Theorem unknown_stock_is_refused (d : db) (code : string) (now : Z) :
  (stocks d !! code = None ->
     mark_table_created d code now = (false, d)
     /\ update_stock_stats d code now = (false, d))
  /\ (tables d !! get_stock_table_name code = None ->
        update_stock_stats d code now = (false, d)).
Proof.
  split.
  - intros H. unfold mark_table_created, update_stock_stats. rewrite H.
    split; reflexivity.
  - intros H. unfold update_stock_stats. unfold get_stock_table_name in H.
    rewrite H. destruct (stocks d !! code); reflexivity.
Qed.

Lemma unknown_stock_is_refused_witness :
  mark_table_created empty_db "005930" 1 = (false, empty_db)
  /\ update_stock_stats empty_db "005930" 1 = (false, empty_db)
  /\ update_stock_stats
       (snd (register_stock empty_db "005930" None None 1)) "005930" 2
     = (false, snd (register_stock empty_db "005930" None None 1)).
Proof.
  destruct (unknown_stock_is_refused empty_db "005930" 1) as [H1 _].
  destruct (H1 eq_refl) as [Hm Hu].
  split; [exact Hm|]. split; [exact Hu|].
  apply (unknown_stock_is_refused
           (snd (register_stock empty_db "005930" None None 1)) "005930" 2).
  reflexivity.
Defined.

End Registry.

(* ===================================================================== *)
(** * Dropping and preparing a table *)
(* ===================================================================== *)

Section DropAndPrepare.

Import DynamicTableManager StockMetadataManager EnhancedDatabaseService.


(** What a call of [prepare_stock_for_collection] leaves, and when it
    succeeds. *)
Lemma prepare_spec (d : db) (code : string)
    (name market : option string) (now : Z) :
  let r := prepare_stock_for_collection d code name market now in
  (fst r = true ->
     check_stock_table_exists (snd r) code = true
     /\ (exists stock, stocks (snd r) !! code = Some stock
                       /\ Stock.table_created stock = true)
     /\ table_rows (snd r) code = table_rows d code
     /\ (forall other, other <> get_stock_table_name code ->
           tables (snd r) !! other = tables d !! other))
  /\ (check_stock_table_exists d code = true
      \/ get_stock_table_name code ∉ metadata d -> fst r = true).
Proof.
  intros r. unfold r, prepare_stock_for_collection.
  destruct (register_stock_spec d code name market now) as (Hr & Hreg & Hrt & Hrm).
  destruct (register_stock d code name market now) as [registered d1].
  cbn [fst snd] in Hr, Hreg, Hrt, Hrm. subst registered. cbn [negb].
  assert (check_stock_table_exists d1 code = check_stock_table_exists d code) as Hex.
  { unfold check_stock_table_exists. rewrite Hrt. reflexivity. }
  unfold create_stock_daily_table. rewrite Hex, Hrm.
  destruct (check_stock_table_exists d code) eqn:E.
  - cbn [negb].
    unfold mark_table_created. destruct Hreg as [s Hs]. rewrite Hs.
    cbn [fst snd set_stocks stocks tables].
    split; [|intros _; reflexivity]. intros _.
    split; [exact Hex|].
    split; [eexists; split; [apply lookup_insert_eq|reflexivity]|].
    split; [unfold table_rows; cbn [set_stocks tables]; rewrite Hrt; reflexivity|].
    intros other _. rewrite Hrt. reflexivity.
  - destruct (bool_decide (get_stock_table_name code ∈ metadata d)) eqn:Em.
    + cbn [negb fst snd]. split; [discriminate|].
      apply bool_decide_eq_true in Em. intros [H|H]; [discriminate|contradiction].
    + cbn [negb].
      unfold mark_table_created. cbn [stocks]. destruct Hreg as [s Hs]. rewrite Hs.
      cbn [fst snd set_stocks stocks tables].
      split; [|intros _; reflexivity]. intros _.
      split.
      { apply check_stock_table_exists_true. cbn [tables]. exists [].
        apply lookup_insert_eq. }
      split; [eexists; split; [apply lookup_insert_eq|reflexivity]|].
      split.
      { unfold table_rows, set_stocks. cbn [tables]. rewrite lookup_insert_eq.
        apply check_stock_table_exists_false in E. rewrite E. reflexivity. }
      intros other Hne. rewrite lookup_insert_ne by congruence.
      rewrite Hrt. reflexivity.
Qed.

(** X4: A successful [prepare_stock_for_collection] leaves the stock
    registered with [table_created] set and its table in place, holding
    the rows it held before (none when the table is new); it succeeds
    whenever the table exists or its name is new to [self.metadata]; and
    preparing the stock again succeeds and keeps the rows. *)
Theorem prepare_establishes_table (d : db) (code : string)
    (name market name2 market2 : option string) (now now2 : Z) :
  let r := prepare_stock_for_collection d code name market now in
  (check_stock_table_exists d code = true
   \/ get_stock_table_name code ∉ metadata d -> fst r = true)
  /\ (fst r = true ->
      check_stock_table_exists (snd r) code = true
      /\ (exists stock, stocks (snd r) !! code = Some stock
                        /\ Stock.table_created stock = true)
      /\ table_rows (snd r) code = table_rows d code
      /\ (forall other, other <> get_stock_table_name code ->
            tables (snd r) !! other = tables d !! other)
      /\ let r2 := prepare_stock_for_collection (snd r) code name2 market2 now2 in
         fst r2 = true
         /\ table_rows (snd r2) code = table_rows d code
         /\ exists stock2, stocks (snd r2) !! code = Some stock2
                           /\ Stock.table_created stock2 = true).
Proof.
  intros r. destruct (prepare_spec d code name market now) as [Hs Hok].
  fold r in Hs, Hok. split; [exact Hok|].
  intros Hr. destruct (Hs Hr) as (Hex & Hstock & Hrows & Hother).
  split; [exact Hex|]. split; [exact Hstock|]. split; [exact Hrows|].
  split; [exact Hother|].
  intros r2. destruct (prepare_spec (snd r) code name2 market2 now2) as [Hs2 Hok2].
  fold r2 in Hs2, Hok2.
  assert (fst r2 = true) as Hr2 by (apply Hok2; left; exact Hex).
  destruct (Hs2 Hr2) as (_ & Hstock2 & Hrows2 & _).
  split; [exact Hr2|]. split; [rewrite Hrows2; exact Hrows|exact Hstock2].
Qed.

Lemma prepare_establishes_table_witness :
  (get_stock_table_name "005930" ∉ metadata empty_db)
  /\ fst (prepare_stock_for_collection empty_db "005930" None None 1) = true
  /\ check_stock_table_exists
       (snd (prepare_stock_for_collection empty_db "005930" None None 1))
       "005930" = true.
Proof.
  assert (get_stock_table_name "005930" ∉ metadata empty_db) as Hnew by set_solver.
  destruct (prepare_establishes_table empty_db "005930" None None None None 1 2)
    as [H2 H1].
  assert (fst (prepare_stock_for_collection empty_db "005930" None None 1) = true)
    as Hok by (apply H2; right; exact Hnew).
  split; [exact Hnew|]. split; [exact Hok|]. apply (H1 Hok).
Defined.

(** X5: [get_stock_latest_date] answers [None] for a missing or empty table,
    and otherwise a stored date that no stored date follows; after a
    successful [update_stock_stats] the registry caches that very date. *)
Theorem latest_date_is_greatest (d : db) (code : string) :
  (check_stock_table_exists d code = false -> get_stock_latest_date d code = None)
  /\ (table_rows d code = [] -> get_stock_latest_date d code = None)
  /\ (forall latest, get_stock_latest_date d code = Some latest ->
        latest <> ""
        /\ In latest (map DailyRow.date (table_rows d code))
        /\ (forall x, In x (map DailyRow.date (table_rows d code)) ->
              String.leb x latest = true)
        /\ forall now d', update_stock_stats d code now = (true, d') ->
             exists stock, stocks d' !! code = Some stock
                           /\ Stock.latest_date stock = Some latest).
Proof.
  unfold get_stock_latest_date, table_rows.
  split; [intros ->; reflexivity|].
  split.
  - intros H. destruct (check_stock_table_exists d code); [|reflexivity].
    cbn [negb]. destruct (tables d !! get_stock_table_name code) as [rows|];
      [|reflexivity].
    simpl in H. subst rows. reflexivity.
  - intros latest.
    destruct (check_stock_table_exists d code); cbn [negb]; [|discriminate].
    destruct (tables d !! get_stock_table_name code) as [rows|] eqn:Ht;
      [|discriminate].
    simpl default.
    destruct (sql_max_text (map DailyRow.date rows)) as [m|] eqn:Em; [|discriminate].
    destruct (String.eqb_spec m ""); [discriminate|].
    intros H. injection H as <-.
    destruct (sql_max_text_spec _ _ Em) as [Hin Hmax].
    split; [assumption|]. split; [exact Hin|]. split; [exact Hmax|].
    intros now d' Hu.
    destruct (stocks d !! code) as [stock|] eqn:Hs.
    + rewrite (update_stock_stats_result _ _ _ _ _ Hs Ht) in Hu.
      injection Hu as <-. eexists. cbn [set_stocks stocks].
      split; [apply lookup_insert_eq|].
      cbn [Stock.latest_date]. rewrite guarded_max. exact Em.
    + unfold update_stock_stats in Hu. rewrite Hs in Hu. discriminate.
Qed.

End DropAndPrepare.

Lemma latest_date_is_greatest_witness :
  EnhancedDatabaseService.get_stock_latest_date one_bar_db "005930" = Some "20250102"
  /\ In "20250102" (map DailyRow.date (table_rows one_bar_db "005930"))
  /\ exists stock,
       stocks (snd (StockMetadataManager.update_stock_stats one_bar_db "005930" 2)) !! "005930"
       = Some stock
       /\ Stock.latest_date stock = Some "20250102".
Proof.
  assert (EnhancedDatabaseService.get_stock_latest_date one_bar_db "005930" = Some "20250102") as Hl
    by reflexivity.
  destruct (latest_date_is_greatest one_bar_db "005930") as (_ & _ & H).
  destruct (H _ Hl) as (_ & Hin & _ & Hreg).
  split; [exact Hl|]. split; [exact Hin|].
  apply (Hreg 2). reflexivity.
Defined.

(* ===================================================================== *)
(** * Writing bars *)
(* ===================================================================== *)

Section Writes.

Import DynamicTableManager StockMetadataManager EnhancedDatabaseService.
Import EnhancedDailyPriceCollector.







End Writes.



Section WriteSequences.

Import DynamicTableManager StockMetadataManager EnhancedDatabaseService.
Import EnhancedDailyPriceCollector.

(** The store after a successful write: the one [prepare] left, when the
    table was missing, with the upserted rows and refreshed statistics. *)
Lemma add_success_decompose (d d' : db) (code : string) (b : bar) (now : Z) :
  add_daily_price_to_stock d code b now = (true, d') ->
  exists d1 rows1,
    ((check_stock_table_exists d code = true /\ d1 = d)
     \/ (check_stock_table_exists d code = false
         /\ prepare_stock_for_collection d code None None now = (true, d1)))
    /\ tables d1 !! get_stock_table_name code = Some rows1
    /\ d' = snd (update_stock_stats
                   (set_tables d1 (<[get_stock_table_name code :=
                                       upsert_rows b now rows1]> (tables d1)))
                   code now).
Proof.
  unfold add_daily_price_to_stock.
  destruct (check_stock_table_exists d code) eqn:Hex; cbn [negb].
  - destruct (tables d !! get_stock_table_name code) as [rows|] eqn:Ht.
    + destruct (update_stock_stats _ code now) as [u d4] eqn:Eu.
      intros H. injection H as <-. exists d, rows.
      split; [left; split; reflexivity|]. split; [exact Ht|].
      rewrite Eu. reflexivity.
    + apply check_stock_table_exists_true in Hex as [rows Hr]. congruence.
  - destruct (prepare_stock_for_collection d code None None now) as [ready d1].
    destruct ready; cbn [negb]; [|discriminate].
    destruct (tables d1 !! get_stock_table_name code) as [rows1|] eqn:Ht1;
      [|discriminate].
    destruct (update_stock_stats _ code now) as [u d4] eqn:Eu.
    intros H. injection H as <-. exists d1, rows1.
    split; [right; split; reflexivity|]. split; [exact Ht1|].
    rewrite Eu. reflexivity.
Qed.








Lemma save_loop_bound (code : string) (data : list (bar * Z)) :
  forall (d : db) (saved : Z),
    saved <= fst (save_loop d code data saved) <= saved + sql_count data.
Proof.
  induction data as [|[b now] rest IH]; intros d saved.
  - simpl. unfold sql_count. simpl. lia.
  - simpl. destruct (add_daily_price_to_stock d code b now) as [ok d1].
    specialize (IH d1 (if ok then saved + 1 else saved)).
    unfold sql_count in *. simpl length. destruct ok; lia.
Qed.

End WriteSequences.

(** X7: After a successful [add_daily_price_to_stock] the registry row of the
    stock, when there is one, caches the row count and the least and
    greatest date of the table as it now is; there is none only when the
    table existed and the stock had never been registered. *)
Theorem add_syncs_registry (d d' : db) (code : string)
    (b : EnhancedDatabaseService.bar) (now : Z) :
  EnhancedDatabaseService.add_daily_price_to_stock d code b now = (true, d') ->
  let rows := table_rows d' code in
  (forall stock, stocks d' !! code = Some stock ->
     Stock.data_count stock = Some (sql_count rows)
     /\ Stock.first_date stock = sql_min_text (map DailyRow.date rows)
     /\ Stock.latest_date stock = sql_max_text (map DailyRow.date rows)
     /\ Stock.last_updated stock = Some now)
  /\ (stocks d' !! code = None <->
      stocks d !! code = None
      /\ DynamicTableManager.check_stock_table_exists d code = true).
Proof.
  intros Hadd rows.
  destruct (add_success_decompose _ _ _ _ _ Hadd) as (d1 & rows1 & Hprep & Ht1 & Hd').
  set (d2 := set_tables d1 (<[DynamicTableManager.get_stock_table_name code :=
                                EnhancedDatabaseService.upsert_rows b now rows1]>
                              (tables d1))) in *.
  assert (tables d2 !! DynamicTableManager.get_stock_table_name code
          = Some (EnhancedDatabaseService.upsert_rows b now rows1)) as Ht2
    by (unfold d2; cbn [set_tables tables]; apply lookup_insert_eq).
  assert (rows = EnhancedDatabaseService.upsert_rows b now rows1) as Hrows.
  { unfold rows. apply table_rows_lookup. rewrite Hd'.
    rewrite (proj1 (update_stock_stats_frame d2 code now)). exact Ht2. }
  assert (stocks d1 !! code = None <->
          stocks d !! code = None
          /\ DynamicTableManager.check_stock_table_exists d code = true) as Hnone.
  { destruct Hprep as [[Hex ->]|[Hex Hp]]; [tauto|].
    destruct (prepare_spec d code None None now) as [H _].
    rewrite Hp in H. cbn [fst snd] in H.
    destruct (H eq_refl) as (_ & (stock & Hs & _) & _).
    rewrite Hs, Hex. split; [discriminate|intros [_ ?]; discriminate]. }
  destruct (stocks d1 !! code) as [stock1|] eqn:Hs1.
  - assert (stocks d2 !! code = Some stock1) as Hs2 by exact Hs1.
    rewrite (update_stock_stats_result _ _ _ _ _ Hs2 Ht2) in Hd'.
    cbn [snd] in Hd'. subst d'. cbn [set_stocks stocks].
    rewrite lookup_insert_eq. split.
    + intros stock H. injection H as <-.
      cbn [Stock.data_count Stock.first_date Stock.latest_date Stock.last_updated].
      rewrite guarded_min, guarded_max, Hrows. repeat split.
    + split; [discriminate|]. intros H. apply Hnone in H. discriminate.
  - assert (update_stock_stats_unknown :
              StockMetadataManager.update_stock_stats d2 code now = (false, d2)).
    { unfold StockMetadataManager.update_stock_stats.
      change (stocks d2 !! code) with (stocks d1 !! code). rewrite Hs1. reflexivity. }
    rewrite update_stock_stats_unknown in Hd'. cbn [snd] in Hd'. subst d'.
    change (stocks d2 !! code) with (stocks d1 !! code). rewrite Hs1.
    split; [discriminate|]. split; [intros _; apply Hnone; reflexivity|reflexivity].
Qed.

Lemma add_syncs_registry_witness :
  exists stock,
    stocks one_bar_db !! "005930" = Some stock
    /\ Stock.data_count stock = Some 1
    /\ Stock.latest_date stock = Some "20250102".
Proof.
  destruct (add_syncs_registry empty_db one_bar_db "005930"
              (sample_bar "20250102" 100) 1 eq_refl) as [H _].
  assert (exists stock, stocks one_bar_db !! "005930" = Some stock) as [stock Hs]
    by (eexists; vm_compute; reflexivity).
  exists stock. split; [exact Hs|].
  destruct (H stock Hs) as (Hc & _ & Hl & _).
  split; [exact Hc|exact Hl].
Defined.



(* ===================================================================== *)
(** * Basic check and the battery as a whole *)
(* ===================================================================== *)

Section Battery.

Import DynamicTableManager.

Lemma null_check_results (code : string) (rows : list DailyRow.t)
    (chks : list (string * (DailyRow.t -> option Z) * string)) :
  let results :=
    flat_map
      (fun chk =>
         let '(field, col, description) := chk in
         let null_count :=
           sql_count (filter (fun r => is_null (col r) = true) rows) in
         if 0 <? null_count then
           [mk_result code "NULL_DATA" WARNING
              [Text description; Text ": "; IntArg null_count; Text "개"]
              (Some [("field", DStr field); ("null_count", DInt null_count);
                     ("total_count", DInt (sql_count rows))])]
         else [])
      chks in
  (length results <= length chks)%nat
  /\ forall r, In r results ->
       stock_code r = code /\ check_type r = "NULL_DATA" /\ status r = WARNING.
Proof.
  induction chks as [|[[field col] description] rest IH]; cbv zeta in *.
  - simpl. split; [lia|intros r []].
  - destruct IH as [IHl IHr]. cbn [flat_map].
    destruct (0 <? sql_count (filter (fun r => is_null (col r) = true) rows)).
    + cbn [app length]. split; [apply le_n_S; exact IHl|].
      intros r [<-|Hr]; [repeat split|apply IHr; exact Hr].
    + cbn [app length]. split; [apply Nat.le_le_succ_r; exact IHl|exact IHr].
Qed.

End Battery.



Section BatteryShape.

Import DynamicTableManager.





Lemma basic_check_results (code : string) (rows : list DailyRow.t) :
  (1 <= length (_check_basic_data_quality code rows) <= 6)%nat
  /\ forall r, In r (_check_basic_data_quality code rows) ->
       stock_code r = code /\ In (check_type r) ["DATA_COUNT"; "NULL_DATA"].
Proof.
  unfold _check_basic_data_quality. destruct (sql_count rows =? 0).
  - simpl. split; [lia|]. intros r [<-|[]]. simpl. tauto.
  - destruct (null_check_results code rows null_checks) as [Hlen Hall].
    cbv zeta in Hlen, Hall. rewrite length_app. simpl length in *.
    split; [lia|]. intros r Hr. apply in_app_or in Hr as [Hr|[<-|[]]].
    + destruct (Hall r Hr) as (Hc & Ht & _). rewrite Ht. simpl. tauto.
    + simpl. tauto.
Qed.

End BatteryShape.





(* ===================================================================== *)
(** * Recent trading days *)
(* ===================================================================== *)

Section RecentDays.

Lemma recent_epoch_value : recent_epoch = 737425.
Proof. reflexivity. Qed.

Lemma days_back_step (today : date) :
  recent_epoch <= today ->
  days_back today = today :: days_back (today - 1).
Proof.
  intros H. unfold days_back.
  replace (today - recent_epoch + 1) with (Z.of_nat (S (Z.to_nat (today - recent_epoch))))
    by lia.
  rewrite seqZ_S, rev_app_distr. simpl.
  f_equal; [lia|]. f_equal. f_equal. lia.
Qed.

Lemma days_back_before_epoch (today : date) :
  today < recent_epoch -> days_back today = [].
Proof. intros H. unfold days_back. rewrite seqZ_nil by lia. reflexivity. Qed.

Lemma days_back_range (today x : date) :
  In x (days_back today) <-> recent_epoch <= x <= today.
Proof.
  unfold days_back. rewrite <- in_rev, <- list_elem_of_In, elem_of_seqZ. lia.
Qed.

Lemma days_back_sorted (k : nat) :
  forall today, today - recent_epoch + 1 = Z.of_nat k ->
                StronglySorted Z.gt (days_back today).
Proof.
  induction k as [|k IH]; intros today Hk.
  - rewrite days_back_before_epoch by lia. constructor.
  - rewrite days_back_step by lia. constructor.
    + apply IH. lia.
    + apply List.Forall_forall. intros x Hx. apply days_back_range in Hx. lia.
Qed.

Lemma sorted_filter {A} (R : A -> A -> Prop) (p : A -> bool) (l : list A) :
  StronglySorted R l -> StronglySorted R (List.filter p l).
Proof.
  induction 1 as [|x l Hs IH Hall]; simpl; [constructor|].
  destruct (p x); [|exact IH]. constructor; [exact IH|].
  apply List.Forall_forall. intros y Hy. apply filter_In in Hy as [Hy _].
  exact (proj1 (List.Forall_forall _ _) Hall y Hy).
Qed.

Lemma in_firstn {A} (n : nat) (l : list A) (x : A) :
  In x (firstn n l) -> In x l.
Proof.
  revert n. induction l as [|y l IH]; intros [|n]; simpl; try tauto.
  intros [H|H]; [left; exact H|right; exact (IH n H)].
Qed.

Lemma sorted_firstn {A} (R : A -> A -> Prop) (n : nat) (l : list A) :
  StronglySorted R l -> StronglySorted R (firstn n l).
Proof.
  intros H. revert n. induction H as [|x l Hs IH Hall]; intros [|n]; simpl;
    try constructor.
  - apply IH.
  - apply List.Forall_forall. intros y Hy.
    apply (proj1 (List.Forall_forall _ _) Hall y).
    apply (in_firstn _ _ _ Hy).
Qed.

(** The loop, with [acc] collected so far, appends the text of the next
    trading days going back from [current_date], up to [days_count] in all. *)
Lemma recent_days_loop_spec (days_count : Z) (fuel : nat) :
  forall current_date acc,
    current_date <= MAXORDINAL ->
    (Z.to_nat (current_date - recent_epoch + 1) < fuel)%nat ->
    recent_days_loop fuel current_date days_count acc
    = Returned
        (acc ++ map strftime
                  (firstn (Z.to_nat (days_count - Z.of_nat (length acc)))
                          (List.filter is_trading_day (days_back current_date)))).
Proof.
  induction fuel as [|fuel IH]; intros cur acc Hmax Hfuel; [lia|].
  cbn [recent_days_loop].
  destruct (Z.ltb_spec (Z.of_nat (length acc)) days_count) as [Hlt|Hge]; cbn [andb].
  - destruct (Z.leb_spec recent_epoch cur) as [Hle|Hgt].
    + assert (add_days cur (-1) = inr (cur - 1)) as ->.
      { unfold add_days. pose proof recent_epoch_value.
        replace (cur + -1) with (cur - 1) by lia.
        destruct (Z.ltb_spec 0 (cur - 1)); [|lia].
        destruct (Z.leb_spec (cur - 1) MAXORDINAL); [reflexivity|lia]. }
      rewrite IH by lia. rewrite (days_back_step cur Hle). cbn [List.filter].
      destruct (is_trading_day cur).
      * rewrite length_app. cbn [length].
        replace (Z.to_nat (days_count - Z.of_nat (length acc)))
          with (S (Z.to_nat (days_count - Z.of_nat (length acc + 1)))) by lia.
        cbn [firstn map]. rewrite <- app_assoc. reflexivity.
      * reflexivity.
    + rewrite days_back_before_epoch by lia. simpl.
      rewrite firstn_nil. simpl. rewrite app_nil_r. reflexivity.
  - replace (Z.to_nat (days_count - Z.of_nat (length acc))) with 0%nat by lia.
    simpl. rewrite app_nil_r. reflexivity.
Qed.

End RecentDays.

(** X12: [get_recent_trading_days], for any current date, never raises: it
    returns the text of the most recent [days_count] trading days not
    before 2020-01-01 and not after today, most recent first: at most
    [days_count] of them, none when [days_count <= 0] or when today lies
    before 2020. *)
Theorem recent_trading_days_spec (today : date) (days_count : Z) :
  today <= MAXORDINAL ->
  exists days,
    get_recent_trading_days today days_count = Returned (map strftime days)
    /\ days = firstn (Z.to_nat days_count)
                     (List.filter is_trading_day (days_back today))
    /\ (length days <= Z.to_nat days_count)%nat
    /\ (forall x, In x days ->
          recent_epoch <= x <= today /\ is_trading_day x = true)
    /\ StronglySorted Z.gt days
    /\ (days_count <= 0 -> days = [])
    /\ (today < recent_epoch -> days = []).
Proof.
  intros Hmax. eexists. split.
  { unfold get_recent_trading_days.
    rewrite recent_days_loop_spec by lia. simpl length.
    rewrite Z.sub_0_r. reflexivity. }
  split; [reflexivity|].
  split; [apply firstn_le_length|].
  split.
  { intros x Hx. apply in_firstn in Hx. apply filter_In in Hx as [Hx Ht].
    apply days_back_range in Hx. split; assumption. }
  split.
  { apply sorted_firstn, sorted_filter.
    destruct (Z.le_gt_cases recent_epoch today).
    - apply (days_back_sorted (Z.to_nat (today - recent_epoch + 1))). lia.
    - rewrite days_back_before_epoch by lia. constructor. }
  split.
  - intros Hn. replace (Z.to_nat days_count) with 0%nat by lia. reflexivity.
  - intros Hb. rewrite days_back_before_epoch by exact Hb.
    simpl. apply firstn_nil.
Qed.

(** The three most recent trading days on Sunday 2025-01-05. *)
Lemma recent_trading_days_spec_witness :
  739256 <= MAXORDINAL
  /\ get_recent_trading_days 739256 3
     = Returned ["20250103"; "20250102"; "20241231"].
Proof.
  split; [unfold MAXORDINAL; lia|].
  destruct (recent_trading_days_spec 739256 3) as (days & Hr & Hd & _).
  { unfold MAXORDINAL. lia. }
  rewrite Hr, Hd. vm_compute. reflexivity.
Defined.

(* ===================================================================== *)
(** * Skipping an update *)
(* ===================================================================== *)



(* ===================================================================== *)
(** * Validating and refreshing all active stocks *)
(* ===================================================================== *)

Section AllActive.

Import DynamicTableManager StockMetadataManager EnhancedDailyPriceCollector.

Lemma active_codes_eq (d : db) :
  active_codes d = map Stock.code (active_stocks d).
Proof.
  unfold active_codes, get_all_active_stocks. rewrite map_map. reflexivity.
Qed.

Lemma codes_of_pairs (l : list (string * Stock.t)) :
  List.Forall (fun kv => Stock.code (snd kv) = fst kv) l ->
  map Stock.code (filter (fun s => Stock.is_active s = true) (map snd l))
  = map fst (filter (fun kv => Stock.is_active (snd kv) = true) l).
Proof.
  induction 1 as [|[k s] l Hk Hl IH]; [reflexivity|].
  cbn [map]. rewrite !filter_cons. cbn [snd fst] in *.
  destruct (decide (Stock.is_active s = true)); cbn [map]; rewrite IH;
    [rewrite Hk|]; reflexivity.
Qed.

(** In a well-formed registry the listed codes are the keys of the active rows. *)
Lemma active_codes_keys (d : db) :
  registry_wf d ->
  active_codes d
  = map fst (filter (fun kv => Stock.is_active (snd kv) = true)
                    (map_to_list (stocks d))).
Proof.
  intros Hwf. rewrite active_codes_eq. unfold active_stocks.
  apply codes_of_pairs. apply List.Forall_forall. intros [k s] Hin.
  apply list_elem_of_In, elem_of_map_to_list in Hin.
  exact (Hwf k s Hin).
Qed.

Lemma active_codes_nodup (d : db) :
  registry_wf d -> List.NoDup (active_codes d).
Proof.
  intros Hwf. rewrite (active_codes_keys d Hwf).
  apply NoDup_map_fst_filter. apply NoDup_ListNoDup.
  apply NoDup_fst_map_to_list.
Qed.

Lemma active_codes_spec (d : db) (code : string) :
  registry_wf d ->
  (In code (active_codes d)
   <-> exists stock, stocks d !! code = Some stock
                     /\ Stock.is_active stock = true).
Proof.
  intros Hwf. rewrite (active_codes_keys d Hwf), in_map_iff. split.
  - intros ([k s] & <- & Hin).
    apply list_elem_of_In, list_elem_of_filter in Hin as [Ha Hin].
    apply elem_of_map_to_list in Hin. exists s. split; assumption.
  - intros (s & Hs & Ha). exists (code, s). split; [reflexivity|].
    apply list_elem_of_In, list_elem_of_filter. split; [exact Ha|].
    apply elem_of_map_to_list. exact Hs.
Qed.

Lemma validate_all_stocks_eq (d : db) :
  validate_all_stocks d
  = map (fun code => (code, validate_stock_data d code)) (active_codes d).
Proof.
  unfold validate_all_stocks, active_codes.
  destruct (get_all_active_stocks d) as [|i l]; [reflexivity|].
  rewrite map_map. reflexivity.
Qed.

Lemma validate_stock_data_nonempty (d : db) (code : string) :
  validate_stock_data d code <> [].
Proof.
  unfold validate_stock_data.
  destruct (check_stock_table_exists d code); cbn [negb]; [|discriminate].
  destruct (basic_check_results code (table_rows d code)) as [Hlen _].
  destruct (_check_basic_data_quality code (table_rows d code));
    [simpl in Hlen; lia|discriminate].
Qed.

End AllActive.

(** X14: In a registry whose rows are stored under their own codes,
    [validate_all_stocks] returns one entry per active stock and none for
    the others: the keys are pairwise distinct, each value is the non-empty
    result list of [validate_stock_data] for its key, and it is the single
    [TABLE_EXISTS] error for a stock that has no table. *)
Theorem validate_all_covers_active (d : db) :
  registry_wf d ->
  let results := validate_all_stocks d in
  List.NoDup (map fst results)
  /\ (forall code,
        In code (map fst results)
        <-> exists stock, stocks d !! code = Some stock
                          /\ Stock.is_active stock = true)
  /\ (forall code rs, In (code, rs) results ->
        rs = validate_stock_data d code /\ rs <> []
        /\ (DynamicTableManager.check_stock_table_exists d code = false ->
            rs = [mk_result code "TABLE_EXISTS" ERROR
                    [Text "종목 테이블이 존재하지 않음"] None]))
  /\ (results = [] <->
      forall code stock, stocks d !! code = Some stock ->
                         Stock.is_active stock = false).
Proof.
  intros Hwf results. unfold results. rewrite validate_all_stocks_eq.
  assert (map fst (map (fun code => (code, validate_stock_data d code))
                       (active_codes d)) = active_codes d) as Hkeys.
  { rewrite map_map. apply map_id. }
  rewrite Hkeys.
  split; [apply active_codes_nodup; exact Hwf|].
  split; [intros code; apply active_codes_spec; exact Hwf|].
  split.
  - intros code rs Hin. apply in_map_iff in Hin as (c & Heq & _).
    injection Heq as -> <-.
    split; [reflexivity|]. split; [apply validate_stock_data_nonempty|].
    intros Hex. unfold validate_stock_data. rewrite Hex. reflexivity.
  - split.
    + intros Hnil code stock Hs.
      destruct (Stock.is_active stock) eqn:Ha; [|reflexivity].
      assert (In code (active_codes d)) as Hin
        by (apply active_codes_spec; eauto).
      destruct (active_codes d); [destruct Hin|discriminate].
    + intros Hnone. destruct (active_codes d) as [|c l] eqn:E; [reflexivity|].
      assert (In c (active_codes d)) as Hin by (rewrite E; left; reflexivity).
      apply active_codes_spec in Hin as (stock & Hs & Ha); [|exact Hwf].
      rewrite (Hnone c stock Hs) in Ha. discriminate.
Qed.


Lemma sample_registry_wf : registry_wf sample_registry.
Proof.
  unfold registry_wf, sample_registry. cbn [stocks].
  apply map_Forall_insert_2; [reflexivity|].
  apply map_Forall_insert_2; [reflexivity|].
  apply map_Forall_empty.
Qed.

Lemma sample_registry_lookup :
  stocks sample_registry !! "005930" = Some (sample_stock "005930" true (Some 3)).
Proof. unfold sample_registry. cbn [stocks]. apply lookup_insert_eq. Qed.

Lemma validate_all_covers_active_witness :
  registry_wf sample_registry
  /\ In "005930" (map fst (validate_all_stocks sample_registry)).
Proof.
  split; [exact sample_registry_wf|].
  pose proof (validate_all_covers_active sample_registry sample_registry_wf) as H.
  cbv zeta in H. destruct H as (_ & Hkeys & _).
  apply (proj2 (Hkeys "005930")).
  exists (sample_stock "005930" true (Some 3)).
  split; [exact sample_registry_lookup|reflexivity].
Defined.

(* ===================================================================== *)
(** * The metadata refresh of the collector *)
(* ===================================================================== *)

Section Cleanup.

Import DynamicTableManager StockMetadataManager EnhancedDailyPriceCollector.





End Cleanup.




(* ===================================================================== *)
(** * Reading the fields of a chart response *)
(* ===================================================================== *)

Section TextFields.

Import EnhancedDatabaseService EnhancedDailyPriceCollector.

Lemma remove_separators (cs : list ascii) :
  remove_char "," (remove_char "-" (remove_char "+" cs))
  = List.filter (fun c => negb (is_separator c)) cs.
Proof.
  unfold remove_char, is_separator. induction cs as [|c cs IH]; [reflexivity|].
  cbn [List.filter].
  destruct (Ascii.eqb c "+") eqn:E1; cbn [negb orb]; [exact IH|].
  cbn [List.filter].
  destruct (Ascii.eqb c "-") eqn:E2; cbn [negb orb]; [exact IH|].
  cbn [List.filter].
  destruct (Ascii.eqb c ",") eqn:E3; cbn [negb orb]; [exact IH|].
  rewrite IH. reflexivity.
Qed.

Lemma lstrip_spaces (space : ascii -> bool) (ws cs : list ascii) :
  forallb space ws = true -> lstrip space (ws ++ cs) = lstrip space cs.
Proof.
  induction ws as [|w ws IH]; [reflexivity|].
  cbn [forallb app lstrip]. intros H. apply andb_prop in H as [Hw Hws].
  rewrite Hw. exact (IH Hws).
Qed.

Lemma lstrip_in (space : ascii -> bool) (c : ascii) (cs : list ascii) :
  In c cs -> space c = false -> In c (lstrip space cs).
Proof.
  intros Hin Hc. induction cs as [|x cs IH]; [destruct Hin|].
  cbn [lstrip]. destruct (space x) eqn:Hx; [|exact Hin].
  destruct Hin as [->|Hin]; [congruence|exact (IH Hin)].
Qed.

Lemma lstrip_incl (space : ascii -> bool) (c : ascii) (cs : list ascii) :
  In c (lstrip space cs) -> In c cs.
Proof.
  induction cs as [|x cs IH]; [intros []|].
  cbn [lstrip]. destruct (space x); [right; auto|auto].
Qed.

Lemma lstrip_solid (space : ascii -> bool) (cs : list ascii) :
  (forall c, In c cs -> space c = false) -> forall rest,
  lstrip space (cs ++ rest) = if decide (cs = []) then lstrip space rest
                              else cs ++ rest.
Proof.
  intros H rest. destruct cs as [|c cs]; [reflexivity|].
  cbn [app lstrip]. rewrite (H c) by (left; reflexivity).
  destruct (decide (c :: cs = [])); [discriminate|reflexivity].
Qed.

Lemma strip_chars_in (space : ascii -> bool) (c : ascii) (cs : list ascii) :
  In c cs -> space c = false -> In c (strip_chars space cs).
Proof.
  intros Hin Hc. unfold strip_chars. apply -> in_rev.
  apply lstrip_in; [|exact Hc]. apply -> in_rev.
  apply lstrip_in; assumption.
Qed.

Lemma strip_chars_incl (space : ascii -> bool) (c : ascii) (cs : list ascii) :
  In c (strip_chars space cs) -> In c cs.
Proof.
  unfold strip_chars. intros H. apply in_rev in H.
  apply lstrip_incl in H. apply in_rev in H. apply lstrip_incl in H. exact H.
Qed.

Lemma strip_chars_core (space : ascii -> bool) (ws1 ds ws2 : list ascii) :
  forallb space ws1 = true -> forallb space ws2 = true -> ds <> [] ->
  (forall c, In c ds -> space c = false) ->
  strip_chars space (ws1 ++ ds ++ ws2) = ds.
Proof.
  intros H1 H2 Hne Hds. unfold strip_chars.
  rewrite (lstrip_spaces _ _ _ H1), (lstrip_solid _ _ Hds).
  destruct (decide (ds = [])) as [|_]; [contradiction|].
  rewrite rev_app_distr.
  rewrite lstrip_spaces.
  2:{ apply forallb_forall. intros c Hc. apply in_rev in Hc.
      exact (proj1 (forallb_forall _ _) H2 c Hc). }
  rewrite <- (app_nil_r (rev ds)).
  rewrite lstrip_solid.
  2:{ intros c Hc. apply Hds. apply in_rev. exact Hc. }
  destruct (decide (rev ds = [])) as [E|_].
  - exfalso. apply Hne. rewrite <- (rev_involutive ds), E. reflexivity.
  - rewrite app_nil_r. apply rev_involutive.
Qed.

Lemma digit_bounds (c : ascii) (v : Z) :
  digit_of_ascii c = Some v -> 0 <= v <= 9 /\ Z.of_N (N_of_ascii c) = 48 + v.
Proof.
  unfold digit_of_ascii. cbv zeta.
  destruct (_ && _) eqn:E; [|discriminate]. intros [= <-].
  apply andb_prop in E as [E1 E2].
  apply Z.leb_le in E1. apply Z.leb_le in E2. lia.
Qed.

Lemma digit_not_space (c : ascii) (v : Z) :
  digit_of_ascii c = Some v -> isspace c = false /\ int_isspace c = false.
Proof.
  intros H. apply digit_bounds in H as [Hv Hc].
  unfold isspace, int_isspace. cbv zeta. rewrite Hc. split.
  - apply orb_false_intro; apply andb_false_intro2; apply Z.leb_gt; lia.
  - apply orb_false_intro; [apply andb_false_intro2; apply Z.leb_gt; lia|].
    apply Z.eqb_neq. lia.
Qed.

Lemma digit_not_mark (c : ascii) (v : Z) :
  digit_of_ascii c = Some v ->
  Ascii.eqb c "_" = false /\ Ascii.eqb c "+" = false /\ Ascii.eqb c "-" = false.
Proof.
  intros H. repeat split; apply Ascii.eqb_neq; intros ->; discriminate H.
Qed.

Lemma int_space_is_space (c : ascii) :
  isspace c = false -> int_isspace c = false.
Proof.
  unfold isspace, int_isspace. cbv zeta. intros H.
  apply orb_false_elim in H as [H1 H2]. rewrite H1. cbn [orb].
  apply Z.eqb_neq. intros E. rewrite E in H2. discriminate H2.
Qed.

Lemma digits_value_all (ds : list ascii) :
  forall (acc n : Z), digits_value acc ds = Some n ->
  forall c, In c ds -> exists v, digit_of_ascii c = Some v.
Proof.
  induction ds as [|d ds IH]; intros acc n H c Hin; [destruct Hin|].
  cbn [digits_value] in H.
  destruct (digit_of_ascii d) as [v|] eqn:Hd; [|discriminate].
  destruct Hin as [<-|Hin]; [eauto|exact (IH _ _ H c Hin)].
Qed.

Lemma int_digits_plain (ds : list ascii) :
  forall (acc n : Z) (b : bool),
    ds <> [] -> digits_value acc ds = Some n -> int_digits b acc ds = Some n.
Proof.
  induction ds as [|d ds IH]; intros acc n b Hne H; [congruence|].
  cbn [digits_value] in H. cbn [int_digits].
  destruct (digit_of_ascii d) as [v|] eqn:Hd; [|discriminate].
  destruct (digit_not_mark d v Hd) as (-> & _ & _).
  destruct ds as [|d' ds'].
  - cbn [digits_value] in H. cbn [int_digits]. exact H.
  - apply IH; [discriminate|exact H].
Qed.

Lemma int_digits_bad (c : ascii) (cs : list ascii) :
  In c cs -> digit_of_ascii c = None -> Ascii.eqb c "_" = false ->
  forall (b : bool) (acc : Z), int_digits b acc cs = None.
Proof.
  intros Hin Hd Hu. induction cs as [|x cs IH]; [destruct Hin|].
  intros b acc. cbn [int_digits].
  destruct Hin as [->|Hin].
  - rewrite Hu, Hd. reflexivity.
  - destruct (Ascii.eqb x "_"); [destruct b; [apply IH; exact Hin|reflexivity]|].
    destruct (digit_of_ascii x); [apply IH; exact Hin|reflexivity].
Qed.

Lemma int_digits_nonneg (cs : list ascii) :
  forall (b : bool) (acc n : Z),
    0 <= acc -> int_digits b acc cs = Some n -> 0 <= n.
Proof.
  induction cs as [|x cs IH]; intros b acc n Hacc H; cbn [int_digits] in H.
  - destruct b; [injection H as <-; exact Hacc|discriminate].
  - destruct (Ascii.eqb x "_").
    + destruct b; [exact (IH _ _ _ Hacc H)|discriminate].
    + destruct (digit_of_ascii x) as [v|] eqn:Hd; [|discriminate].
      apply digit_bounds in Hd as [Hv _].
      refine (IH _ _ _ _ H). lia.
Qed.

Lemma cleaned_has_no_separator (value : list ascii) (c : ascii) :
  In c (strip_chars isspace
          (List.filter (fun c => negb (is_separator c)) value)) ->
  is_separator c = false.
Proof.
  intros H. apply strip_chars_incl, filter_In in H as [_ H].
  apply negb_true_iff. exact H.
Qed.

Lemma clean_int_nonneg (value : string) : 0 <= _clean_and_convert_to_int value.
Proof.
  unfold _clean_and_convert_to_int. destruct (String.eqb value ""); [lia|].
  cbv zeta. rewrite remove_separators.
  pose proof (cleaned_has_no_separator (list_ascii_of_string value)) as Hsep.
  destruct (strip_chars isspace _) as [|a cleaned]; [lia|].
  destruct (py_int (a :: cleaned)) as [n|] eqn:Hn; [|lia].
  unfold py_int in Hn.
  pose proof (strip_chars_incl int_isspace) as Hincl.
  specialize (fun c => Hincl c (a :: cleaned)).
  destruct (strip_chars int_isspace (a :: cleaned)) as [|x digits];
    [discriminate|].
  assert (is_separator x = false) as Hx
    by (apply Hsep, Hincl; left; reflexivity).
  unfold is_separator in Hx.
  apply orb_false_elim in Hx as [Hx _]. apply orb_false_elim in Hx as [Hp Hm].
  rewrite Hp, Hm in Hn.
  exact (int_digits_nonneg _ _ _ _ (Z.le_refl 0) Hn).
Qed.

Lemma clean_int_empty : _clean_and_convert_to_int "" = 0.
Proof. reflexivity. Qed.

Lemma omap_parse_row_length (rows : list (gmap string string)) :
  (length (omap parse_row rows) <= length rows)%nat.
Proof.
  induction rows as [|row rows IH]; [apply le_n|].
  cbn [omap list_omap length]. destruct (parse_row row); cbn [length]; lia.
Qed.

Lemma parse_row_spec (row : gmap string string) :
  parse_row row
  = if String.eqb (row_field row "일자") ""
       || String.eqb (row_field row "현재가") ""
       || (_clean_and_convert_to_int (row_field row "현재가") <=? 0)
    then None else Some (bar_of_row row).
Proof.
  unfold parse_row, bar_of_row. cbv zeta.
  destruct (String.eqb (row_field row "일자") "");
    destruct (String.eqb (row_field row "현재가") ""); cbn [orb];
    try reflexivity;
    destruct (_clean_and_convert_to_int (row_field row "현재가") <=? 0);
    reflexivity.
Qed.

Lemma parse_daily_data_eq (r : response) (stock_code : string) :
  _parse_daily_data r stock_code
  = if bool_decide (resp_tr_code r = Some TR_CODE)
    then match resp_data r with
         | Some info =>
             if data_parsed info then omap parse_row (data_raw_data info)
             else []
         | None => []
         end
    else [].
Proof.
  unfold _parse_daily_data.
  destruct (bool_decide (resp_tr_code r = Some TR_CODE)); [|reflexivity].
  cbn [negb]. destruct (resp_data r) as [info|]; [|reflexivity].
  destruct (data_parsed info); [|reflexivity].
  cbn [negb]. destruct (data_raw_data info); reflexivity.
Qed.

Lemma omap_parse_row_dates (rows : list (gmap string string)) :
  sublist (map bar_date (omap parse_row rows))
          (map (fun row => row_field row "일자") rows).
Proof.
  induction rows as [|row rows IH]; [constructor|].
  cbn [omap list_omap map]. rewrite parse_row_spec.
  destruct (_ || _); cbn [map].
  - apply sublist_cons. exact IH.
  - apply sublist_skip. exact IH.
Qed.

End TextFields.

(** X16: on ASCII text [_clean_and_convert_to_int] never returns a negative
    number.  Plus and minus signs, commas and surrounding white space are
    ignored: when what is left is a run of at most 4300 decimal digits, the
    result is their value.  A text with any character other than a digit,
    an underscore, a sign, a comma or white space (a decimal point, a
    letter) gives 0. *)
Theorem clean_int_reads_digits (value : string) :
  ascii_text value ->
  0 <= EnhancedDailyPriceCollector._clean_and_convert_to_int value
  /\ (forall (ws1 ds ws2 : list ascii) (n : Z),
        List.filter (fun c => negb (is_separator c)) (list_ascii_of_string value)
        = ws1 ++ ds ++ ws2 ->
        forallb EnhancedDailyPriceCollector.isspace ws1 = true ->
        forallb EnhancedDailyPriceCollector.isspace ws2 = true ->
        ds <> [] -> (length ds <= 4300)%nat ->
        digits_value 0 ds = Some n ->
        EnhancedDailyPriceCollector._clean_and_convert_to_int value = n)
  /\ (forall c : ascii,
        In c (list_ascii_of_string value) ->
        digit_of_ascii c = None -> c <> "_"%char ->
        is_separator c = false ->
        EnhancedDailyPriceCollector.isspace c = false ->
        EnhancedDailyPriceCollector._clean_and_convert_to_int value = 0).
Proof.
  intros _. split; [apply clean_int_nonneg|]. split.
  - intros ws1 ds ws2 n Hf H1 H2 Hne _ Hn.
    unfold EnhancedDailyPriceCollector._clean_and_convert_to_int.
    destruct (String.eqb value "") eqn:E.
    { apply String.eqb_eq in E. subst value. cbn in Hf.
      symmetry in Hf. apply app_eq_nil in Hf as [_ Hf].
      apply app_eq_nil in Hf as [Hf _]. contradiction. }
    cbv zeta. rewrite remove_separators, Hf.
    assert (forall c, In c ds -> EnhancedDailyPriceCollector.isspace c = false
                                 /\ EnhancedDailyPriceCollector.int_isspace c = false)
      as Hds.
    { intros c Hc. destruct (digits_value_all ds 0 n Hn c Hc) as [v Hv].
      exact (digit_not_space c v Hv). }
    rewrite (strip_chars_core _ ws1 ds ws2 H1 H2 Hne (fun c Hc => proj1 (Hds c Hc))).
    destruct ds as [|d ds'] eqn:Eds; [contradiction|]. rewrite <- Eds in *.
    unfold EnhancedDailyPriceCollector.py_int.
    pose proof (strip_chars_core EnhancedDailyPriceCollector.int_isspace
                  [] ds [] eq_refl eq_refl Hne (fun c Hc => proj2 (Hds c Hc)))
      as Hs.
    cbn [app] in Hs. rewrite app_nil_r in Hs. rewrite Hs, Eds.
    destruct (digits_value_all ds 0 n Hn d) as [v Hv];
      [rewrite Eds; left; reflexivity|].
    destruct (digit_not_mark d v Hv) as (_ & -> & ->).
    rewrite <- Eds.
    rewrite (int_digits_plain ds 0 n false Hne Hn). reflexivity.
  - intros c Hin Hd Hu Hsep Hsp.
    unfold EnhancedDailyPriceCollector._clean_and_convert_to_int.
    destruct (String.eqb value ""); [reflexivity|].
    cbv zeta. rewrite remove_separators.
    assert (In c (EnhancedDailyPriceCollector.strip_chars
                    EnhancedDailyPriceCollector.isspace
                    (List.filter (fun c => negb (is_separator c))
                       (list_ascii_of_string value)))) as Hc.
    { apply strip_chars_in; [|exact Hsp]. apply filter_In.
      split; [exact Hin|]. rewrite Hsep. reflexivity. }
    destruct (EnhancedDailyPriceCollector.strip_chars
                EnhancedDailyPriceCollector.isspace _) as [|a cleaned];
      [reflexivity|].
    assert (EnhancedDailyPriceCollector.py_int (a :: cleaned) = None) as ->;
      [|reflexivity].
    unfold EnhancedDailyPriceCollector.py_int.
    pose proof (strip_chars_in EnhancedDailyPriceCollector.int_isspace c
                  (a :: cleaned) Hc (int_space_is_space c Hsp)) as Hc'.
    assert (Ascii.eqb c "_" = false) as Hu' by (apply Ascii.eqb_neq; exact Hu).
    unfold is_separator in Hsep.
    apply orb_false_elim in Hsep as [Hsep _].
    apply orb_false_elim in Hsep as [Hp Hm].
    destruct (EnhancedDailyPriceCollector.strip_chars
                EnhancedDailyPriceCollector.int_isspace (a :: cleaned))
      as [|x digits]; [reflexivity|].
    destruct (Ascii.eqb x "+") eqn:Ex.
    { apply Ascii.eqb_eq in Ex. subst x.
      destruct Hc' as [<-|Hc']; [discriminate Hp|].
      exact (int_digits_bad c digits Hc' Hd Hu' false 0). }
    destruct (Ascii.eqb x "-") eqn:Ey.
    { apply Ascii.eqb_eq in Ey. subst x.
      destruct Hc' as [<-|Hc']; [discriminate Hm|].
      rewrite (int_digits_bad c digits Hc' Hd Hu' false 0). reflexivity. }
    exact (int_digits_bad c (x :: digits) Hc' Hd Hu' false 0).
Qed.

Lemma clean_int_reads_digits_witness :
  ascii_text "-70,500"
  /\ EnhancedDailyPriceCollector._clean_and_convert_to_int "-70,500" = 70500.
Proof.
  split; [reflexivity|].
  apply (proj1 (proj2 (clean_int_reads_digits "-70,500" eq_refl))
           [] (list_ascii_of_string "70500") []);
    try reflexivity; [discriminate|cbn; lia].
Defined.

(** X17: for a response whose rows hold ASCII text, [_parse_daily_data]
    returns nothing when the TR code is not opt10081 or the data is not
    marked as parsed; otherwise it keeps, in the order of the response,
    exactly the rows whose date is not blank and whose close reads as a
    positive number.  Every bar it returns has a non-empty date, a positive
    close, non-negative volume, trading value, open, high and low, and the
    day-over-day fields set to 0. *)
Theorem parsed_bars_are_clean (r : EnhancedDailyPriceCollector.response)
    (stock_code : string) :
  List.Forall ascii_row (response_rows r) ->
  let bars := EnhancedDailyPriceCollector._parse_daily_data r stock_code in
  (EnhancedDailyPriceCollector.resp_tr_code r
     <> Some EnhancedDailyPriceCollector.TR_CODE -> bars = [])
  /\ (forall info, EnhancedDailyPriceCollector.resp_data r = Some info ->
        EnhancedDailyPriceCollector.data_parsed info = false -> bars = [])
  /\ (length bars <= length (response_rows r))%nat
  /\ sublist (map EnhancedDatabaseService.bar_date bars)
             (map (fun row => EnhancedDailyPriceCollector.row_field row "일자")
                  (response_rows r))
  /\ List.Forall
       (fun b =>
          EnhancedDatabaseService.bar_date b <> ""
          /\ 0 < EnhancedDatabaseService.bar_current_price b
          /\ 0 <= EnhancedDatabaseService.bar_volume b
          /\ 0 <= EnhancedDatabaseService.bar_trading_value b
          /\ 0 <= EnhancedDatabaseService.bar_start_price b
          /\ 0 <= EnhancedDatabaseService.bar_high_price b
          /\ 0 <= EnhancedDatabaseService.bar_low_price b
          /\ EnhancedDatabaseService.bar_prev_day_diff b = 0
          /\ EnhancedDatabaseService.bar_change_rate b = Some 0%Q)
       bars
  /\ (forall info,
        EnhancedDailyPriceCollector.resp_tr_code r
          = Some EnhancedDailyPriceCollector.TR_CODE ->
        EnhancedDailyPriceCollector.resp_data r = Some info ->
        EnhancedDailyPriceCollector.data_parsed info = true ->
        forall b, In b bars
          <-> exists row,
                In row (response_rows r)
                /\ EnhancedDailyPriceCollector.row_field row "일자" <> ""
                /\ 0 < EnhancedDailyPriceCollector._clean_and_convert_to_int
                         (EnhancedDailyPriceCollector.row_field row "현재가")
                /\ b = bar_of_row row).
Proof.
  intros _ bars. unfold bars. rewrite parse_daily_data_eq. unfold response_rows.
  split.
  { intros Hne. rewrite bool_decide_eq_false_2 by exact Hne. reflexivity. }
  split.
  { intros info -> ->. destruct (bool_decide _); reflexivity. }
  assert (forall rows b, In b (omap EnhancedDailyPriceCollector.parse_row rows)
            <-> exists row, In row rows
                  /\ EnhancedDailyPriceCollector.row_field row "일자" <> ""
                  /\ 0 < EnhancedDailyPriceCollector._clean_and_convert_to_int
                           (EnhancedDailyPriceCollector.row_field row "현재가")
                  /\ b = bar_of_row row) as Hkept.
  { intros rows b. rewrite <- list_elem_of_In, list_elem_of_omap.
    split.
    - intros (row & Hin & Hp). exists row.
      apply list_elem_of_In in Hin. split; [exact Hin|].
      rewrite parse_row_spec in Hp.
      destruct (String.eqb _ "") eqn:E1 in Hp; [discriminate|].
      destruct (String.eqb _ "") eqn:E2 in Hp; [discriminate|].
      destruct (_ <=? 0) eqn:E3 in Hp; [discriminate|].
      cbn [orb] in Hp. injection Hp as <-.
      apply String.eqb_neq in E1. apply Z.leb_gt in E3. auto.
    - intros (row & Hin & Hd & Hp & ->). exists row.
      apply list_elem_of_In in Hin. split; [exact Hin|].
      rewrite parse_row_spec.
      apply String.eqb_neq in Hd. rewrite Hd.
      assert (String.eqb (EnhancedDailyPriceCollector.row_field row "현재가") ""
              = false) as ->.
      { apply String.eqb_neq. intros E. rewrite E in Hp.
        rewrite clean_int_empty in Hp. lia. }
      apply Z.leb_gt in Hp. rewrite Hp. reflexivity. }
  assert (forall rows,
            List.Forall
              (fun b =>
                 EnhancedDatabaseService.bar_date b <> ""
                 /\ 0 < EnhancedDatabaseService.bar_current_price b
                 /\ 0 <= EnhancedDatabaseService.bar_volume b
                 /\ 0 <= EnhancedDatabaseService.bar_trading_value b
                 /\ 0 <= EnhancedDatabaseService.bar_start_price b
                 /\ 0 <= EnhancedDatabaseService.bar_high_price b
                 /\ 0 <= EnhancedDatabaseService.bar_low_price b
                 /\ EnhancedDatabaseService.bar_prev_day_diff b = 0
                 /\ EnhancedDatabaseService.bar_change_rate b = Some 0%Q)
              (omap EnhancedDailyPriceCollector.parse_row rows)) as Hclean.
  { intros rows. apply List.Forall_forall. intros b Hb.
    apply Hkept in Hb as (row & _ & Hd & Hp & ->).
    unfold bar_of_row. cbn.
    repeat split; try apply clean_int_nonneg; assumption. }
  destruct (bool_decide _) eqn:Etr.
  2:{ split; [cbn; lia|]. split; [apply sublist_nil_l|]. split; [constructor|].
      intros info Htr. apply bool_decide_eq_false_1 in Etr. contradiction. }
  destruct (EnhancedDailyPriceCollector.resp_data r) as [info|].
  2:{ split; [cbn; lia|]. split; [apply sublist_nil_l|]. split; [constructor|].
      intros info _ Hd. discriminate Hd. }
  destruct (EnhancedDailyPriceCollector.data_parsed info) eqn:Ep.
  2:{ split; [cbn; lia|]. split; [apply sublist_nil_l|]. split; [constructor|].
      intros info' _ [= <-] Hp'. congruence. }
  split; [apply omap_parse_row_length|].
  split; [apply omap_parse_row_dates|].
  split; [apply Hclean|].
  intros info' _ [= <-] _ b. apply Hkept.
Qed.

Lemma sample_rows_ascii : List.Forall ascii_row (response_rows sample_response).
Proof.
  constructor; [|constructor].
  unfold ascii_row, sample_chart_row.
  apply map_Forall_insert_2; [reflexivity|].
  apply map_Forall_insert_2; [reflexivity|].
  apply map_Forall_empty.
Qed.

Lemma parsed_bars_are_clean_witness :
  List.Forall ascii_row (response_rows sample_response)
  /\ (length (EnhancedDailyPriceCollector._parse_daily_data
                sample_response "005930") <= 1)%nat.
Proof.
  split; [exact sample_rows_ascii|].
  pose proof (parsed_bars_are_clean sample_response "005930" sample_rows_ascii)
    as H.
  cbv zeta in H. destruct H as (_ & _ & Hlen & _). exact Hlen.
Defined.

(* ===================================================================== *)
(** * Collecting one stock *)
(* ===================================================================== *)

Section Collecting.

Import DynamicTableManager StockMetadataManager EnhancedDatabaseService.
Import EnhancedDailyPriceCollector.

(** Preparing a stock never changes the rows of any table. *)
Lemma prepare_rows_frame (d : db) (code : string) (name market : option string)
    (now : Z) (other : string) :
  table_rows (snd (prepare_stock_for_collection d code name market now)) other
  = table_rows d other.
Proof.
  unfold prepare_stock_for_collection.
  destruct (register_stock_spec d code name market now) as (Hr & _ & Hrt & _).
  destruct (register_stock d code name market now) as [registered d1].
  cbn [fst snd] in Hr, Hrt. subst registered. cbn [negb].
  assert (table_rows d1 other = table_rows d other) as <-
    by (unfold table_rows; rewrite Hrt; reflexivity).
  unfold create_stock_daily_table.
  destruct (check_stock_table_exists d1 code) eqn:Hex; cbn [negb].
  - pose proof (proj1 (mark_table_created_frame d1 code now)) as Hm.
    destruct (mark_table_created d1 code now) as [ok d3]. cbn [snd] in *.
    unfold table_rows. rewrite Hm. reflexivity.
  - destruct (bool_decide (get_stock_table_name code ∈ metadata d1));
      cbn [negb snd]; [reflexivity|].
    match goal with
    | |- context [mark_table_created ?d2 code now] =>
        pose proof (proj1 (mark_table_created_frame d2 code now)) as Hm;
        destruct (mark_table_created d2 code now) as [ok d3]
    end.
    cbn [snd tables] in *. unfold table_rows. rewrite Hm.
    destruct (decide (get_stock_table_name other = get_stock_table_name code))
      as [E|E].
    + rewrite E, lookup_insert_eq.
      apply check_stock_table_exists_false in Hex. rewrite Hex. reflexivity.
    + rewrite lookup_insert_ne by congruence. reflexivity.
Qed.

Lemma register_if_needed_spec (c : collector) (code : string)
    (name : option string) (now : Z) :
  let r := register_stock_if_needed c code name now in
  kiwoom (snd r) = kiwoom c
  /\ collected_count (snd r) = collected_count c
  /\ error_count (snd r) = error_count c
  /\ skipped_count (snd r) = skipped_count c
  /\ registered_stocks (snd r)
     = (if fst r then registered_stocks c + 1 else registered_stocks c)
  /\ (forall other, table_rows (db_service (snd r)) other
                    = table_rows (db_service c) other)
  /\ (fst r = true -> check_stock_table_exists (db_service (snd r)) code = true).
Proof.
  unfold register_stock_if_needed.
  assert (forall stock_name,
            let r :=
              (let (ready, d) :=
                 prepare_stock_for_collection (db_service c) code stock_name
                   (Some "KOSPI") now in
               if ready
               then (true, mk_collector (kiwoom c) d (collected_count c)
                             (error_count c) (skipped_count c)
                             (registered_stocks c + 1))
               else (false, mk_collector (kiwoom c) d (collected_count c)
                              (error_count c) (skipped_count c)
                              (registered_stocks c))) in
            kiwoom (snd r) = kiwoom c
            /\ collected_count (snd r) = collected_count c
            /\ error_count (snd r) = error_count c
            /\ skipped_count (snd r) = skipped_count c
            /\ registered_stocks (snd r)
               = (if fst r then registered_stocks c + 1 else registered_stocks c)
            /\ (forall other, table_rows (db_service (snd r)) other
                              = table_rows (db_service c) other)
            /\ (fst r = true
                -> check_stock_table_exists (db_service (snd r)) code = true))
    as Hprep.
  { intros stock_name.
    pose proof (prepare_rows_frame (db_service c) code stock_name
                  (Some "KOSPI") now) as Hrows.
    pose proof (prepare_spec (db_service c) code stock_name (Some "KOSPI") now)
      as [Hp _].
    destruct (prepare_stock_for_collection (db_service c) code stock_name
                (Some "KOSPI") now) as [ready d].
    cbn [fst snd] in Hrows, Hp.
    destruct ready; cbn [fst snd kiwoom collected_count error_count
                         skipped_count registered_stocks db_service];
      repeat (split; [reflexivity|]); (split; [exact Hrows|]).
    - intros _. exact (proj1 (Hp eq_refl)).
    - discriminate. }
  assert (let r := (false, c) in
          kiwoom (snd r) = kiwoom c
          /\ collected_count (snd r) = collected_count c
          /\ error_count (snd r) = error_count c
          /\ skipped_count (snd r) = skipped_count c
          /\ registered_stocks (snd r)
             = (if fst r then registered_stocks c + 1 else registered_stocks c)
          /\ (forall other, table_rows (db_service (snd r)) other
                            = table_rows (db_service c) other)
          /\ (fst r = true
              -> check_stock_table_exists (db_service (snd r)) code = true))
    as Hraise.
  { cbn [fst snd]. repeat (split; [reflexivity|]). discriminate. }
  cbv zeta in *.
  match goal with
  | |- context [match ?looked_up with
                | Some stock_name => _
                | None => (false, c)
                end] => destruct looked_up as [stock_name|]
  end; [apply Hprep|exact Hraise].
Qed.

Lemma parsed_bar_positive (r : response) (code : string) (b : bar) :
  In b (_parse_daily_data r code) ->
  0 < bar_current_price b /\ bar_date b <> "".
Proof.
  rewrite parse_daily_data_eq.
  destruct (bool_decide _); [|intros []].
  destruct (resp_data r) as [info|]; [|intros []].
  destruct (data_parsed info); [|intros []].
  intros H. apply list_elem_of_In, list_elem_of_omap in H as (row & _ & Hp).
  rewrite parse_row_spec in Hp.
  destruct (String.eqb _ "") eqn:E1 in Hp; [discriminate|].
  destruct (String.eqb _ "") eqn:E2 in Hp; [discriminate|].
  destruct (_ <=? 0) eqn:E3 in Hp; [discriminate|].
  cbn [orb] in Hp. injection Hp as <-.
  apply String.eqb_neq in E1. apply Z.leb_gt in E3.
  unfold bar_of_row. cbn. split; assumption.
Qed.

(** The loop only adds parsed bars, and counts at most one error. *)
Lemma request_loop_spec (k : connector) (code base : string) (remaining : nat) :
  forall (n : Z) (prev_next : string) (acc bars : list bar) (errors errors' : Z),
    request_loop k code base remaining n prev_next acc errors
    = Some (bars, errors') ->
    errors <= errors' <= errors + 1
    /\ exists more,
         bars = acc ++ more
         /\ forall b, In b more -> 0 < bar_current_price b /\ bar_date b <> "".
Proof.
  induction remaining as [|remaining IH];
    intros n prev_next acc bars errors errors' H; cbn [request_loop] in H.
  - injection H as <- <-. split; [lia|]. exists [].
    rewrite app_nil_r. split; [reflexivity|intros b []].
  - destruct (request_tr_data k code base n prev_next) as [| |r]; [discriminate| |].
    + injection H as <- <-. split; [lia|]. exists [].
      rewrite app_nil_r. split; [reflexivity|intros b []].
    + pose proof (parsed_bar_positive r code) as Hpos.
      destruct (_parse_daily_data r code) as [|b0 daily].
      * injection H as <- <-. split; [lia|]. exists [].
        rewrite app_nil_r. split; [reflexivity|intros b []].
      * cbv zeta in H.
        destruct (negb (String.eqb (default "0" (resp_prev_next r)) "2")).
        -- injection H as <- <-. split; [lia|]. exists (b0 :: daily).
           split; [reflexivity|exact Hpos].
        -- apply IH in H as (Herr & more & -> & Hmore). split; [exact Herr|].
           exists ((b0 :: daily) ++ more). rewrite app_assoc.
           split; [reflexivity|].
           intros b Hb. apply in_app_or in Hb as [Hb|Hb]; auto.
Qed.






End Collecting.


Lemma sample_connector_ascii :
  forall k, EnhancedDailyPriceCollector.kiwoom sample_collector = Some k ->
            ascii_replies k.
Proof.
  intros k [= <-] code base n prev_next r [= <-]. exact sample_rows_ascii.
Qed.


(* ===================================================================== *)
(** * Collecting several stocks *)
(* ===================================================================== *)

Section CollectingMany.

Import DynamicTableManager StockMetadataManager EnhancedDatabaseService.
Import EnhancedDailyPriceCollector.

(** What one call does to the counters. *)
Lemma collect_single_counters (c : collector) (code : string)
    (start_date end_date : option string) (update_existing : bool)
    (now : Z) (today : date) (clock : nat -> Z) :
  let r := collect_single_stock c code start_date end_date update_existing
             now today clock in
  kiwoom (snd r) = kiwoom c
  /\ collected_count c <= collected_count (snd r)
  /\ error_count c <= error_count (snd r) <= error_count c + 1
  /\ skipped_count c <= skipped_count (snd r)
     <= skipped_count c + (if fst r then 1 else 0)
  /\ (update_existing = true -> skipped_count (snd r) = skipped_count c)
  /\ registered_stocks c + (if fst r then 1 else 0)
     <= registered_stocks (snd r) <= registered_stocks c + 1
  /\ (connected c = false -> r = (false, c)).
Proof.
  unfold connected, collect_single_stock.
  destruct (kiwoom c) as [k|] eqn:Hk.
  2:{ cbn [fst snd]. rewrite ?Hk. repeat split; try reflexivity; lia. }
  destruct (is_connected k) eqn:Hconn; cbn [negb].
  2:{ cbn [fst snd]. rewrite ?Hk. repeat split; try reflexivity; lia. }
  pose proof (register_if_needed_spec c code None now) as Hreg. cbv zeta in Hreg.
  destruct (register_stock_if_needed c code None now) as [registered c1].
  cbn [fst snd] in Hreg. destruct Hreg as (Hk1 & Hcc & Hec & Hsc & Hrc & _ & Hex).
  rewrite Hk in Hk1.
  destruct registered; cbn [negb].
  2:{ cbn [fst snd kiwoom db_service collected_count error_count skipped_count
           registered_stocks].
      repeat split; try assumption; try discriminate; lia. }
  specialize (Hex eq_refl).
  destruct update_existing; cbn [negb andb].
  - destruct (request_loop k code _ 20 0 "0" [] (error_count c1))
      as [[bars errors]|] eqn:Hloop.
    2:{ cbn [fst snd kiwoom db_service collected_count error_count skipped_count
             registered_stocks].
        repeat split; try assumption; try discriminate; lia. }
    apply request_loop_spec in Hloop as (Herr & more & -> & _).
    cbn [app]. destruct more as [|b0 more].
    { cbn [fst snd kiwoom db_service collected_count error_count skipped_count
           registered_stocks].
      repeat split; try assumption; try discriminate; lia. }
    unfold _save_daily_data_to_stock_table.
    pose proof (save_loop_bound code (stamp clock 0 (b0 :: more)) (db_service c1) 0)
      as Hb.
    destruct (save_loop (db_service c1) code (stamp clock 0 (b0 :: more)) 0)
      as [saved d'].
    cbn [fst snd kiwoom db_service collected_count error_count skipped_count
         registered_stocks] in *.
    repeat split; try assumption; try discriminate; lia.
  - destruct (match get_stock_latest_date (db_service c1) code with
              | Some latest => _should_skip_update today latest
              | None => false
              end).
    { cbn [fst snd kiwoom db_service collected_count error_count skipped_count
           registered_stocks].
      repeat split; try assumption; try discriminate; lia. }
    destruct (request_loop k code _ 20 0 "0" [] (error_count c1))
      as [[bars errors]|] eqn:Hloop.
    2:{ cbn [fst snd kiwoom db_service collected_count error_count skipped_count
             registered_stocks].
        repeat split; try assumption; try discriminate; lia. }
    apply request_loop_spec in Hloop as (Herr & more & -> & _).
    cbn [app]. destruct more as [|b0 more].
    { cbn [fst snd kiwoom db_service collected_count error_count skipped_count
           registered_stocks].
      repeat split; try assumption; try discriminate; lia. }
    unfold _save_daily_data_to_stock_table.
    pose proof (save_loop_bound code (stamp clock 0 (b0 :: more)) (db_service c1) 0)
      as Hb.
    destruct (save_loop (db_service c1) code (stamp clock 0 (b0 :: more)) 0)
      as [saved d'].
    cbn [fst snd kiwoom db_service collected_count error_count skipped_count
         registered_stocks] in *.
    repeat split; try assumption; try discriminate; lia.
Qed.

Lemma connected_same (c c1 : collector) :
  kiwoom c1 = kiwoom c -> connected c1 = connected c.
Proof. unfold connected. intros ->. reflexivity. Qed.

(** The loop files every code under [success] or [failed], and nowhere
    else. *)
Lemma collect_loop_spec (sd ed : option string) (upd val : bool)
    (envs : nat -> call_env) (codes : list string) :
  forall (c : collector) (idx : nat) (results : collection_results),
    let r := collect_loop c codes idx sd ed upd val envs results in
    exists s f,
      res_success (fst r) = res_success results ++ s
      /\ res_failed (fst r) = res_failed results ++ f
      /\ res_skipped (fst r) = res_skipped results
      /\ res_registered (fst r) = res_registered results
      /\ Permutation (s ++ f) codes
      /\ sublist s codes /\ sublist f codes
      /\ (forall code,
            is_Some (res_validation_results (fst r) !! code)
            <-> is_Some (res_validation_results results !! code)
                \/ (val = true /\ In code s))
      /\ kiwoom (snd r) = kiwoom c
      /\ collected_count c <= collected_count (snd r)
      /\ error_count c <= error_count (snd r) <= error_count c + sql_count codes
      /\ skipped_count c <= skipped_count (snd r) <= skipped_count c + sql_count s
      /\ (upd = true -> skipped_count (snd r) = skipped_count c)
      /\ registered_stocks c + sql_count s <= registered_stocks (snd r)
         <= registered_stocks c + sql_count codes
      /\ (connected c = false -> s = [] /\ f = codes /\ snd r = c).
Proof.
  induction codes as [|code rest IH]; intros c idx results.
  - cbn [collect_loop fst snd]. exists [], []. rewrite !app_nil_r.
    unfold sql_count. cbn [length app].
    do 4 (split; [reflexivity|]).
    split; [apply perm_nil|]. split; [apply sublist_nil|].
    split; [apply sublist_nil|].
    split.
    { intros x. split; [intros H; left; exact H|intros [H|[_ []]]; exact H]. }
    split; [reflexivity|]. split; [lia|]. split; [lia|]. split; [lia|].
    split; [reflexivity|]. split; [lia|]. intros _. repeat split; reflexivity.
  - cbn [collect_loop].
    pose proof (collect_single_counters c code sd ed upd (env_now (envs idx))
                  (env_today (envs idx)) (env_clock (envs idx))) as Hc.
    cbv zeta in Hc.
    destruct (collect_single_stock c code sd ed upd (env_now (envs idx))
                (env_today (envs idx)) (env_clock (envs idx))) as [ok c1].
    cbn [fst snd] in Hc.
    destruct Hc as (Hk & Hcol & Herr & Hskip & Hupd & Hreg & Hconn).
    pose proof (connected_same c c1 Hk) as Hcs.
    destruct ok.
    + rewrite andb_true_r.
      match goal with
      | |- context [collect_loop c1 rest (S idx) sd ed upd val envs ?res2] =>
          specialize (IH c1 (S idx) res2)
      end.
      cbv zeta in IH.
      destruct IH as (s & f & Hs & Hf & Hsk & Hrg & Hperm & Hss & Hsf & Hval
                      & Hk' & Hcol' & Herr' & Hskip' & Hupd' & Hreg' & Hconn').
      exists (code :: s), f.
      assert (sql_count (code :: s) = sql_count s + 1) as Hn1
        by (unfold sql_count; cbn [length]; lia).
      assert (sql_count (code :: rest) = sql_count rest + 1) as Hn2
        by (unfold sql_count; cbn [length]; lia).
      rewrite Hn1, Hn2.
      split.
      { rewrite Hs. destruct val; cbn [res_success]; rewrite <- app_assoc;
          reflexivity. }
      split.
      { rewrite Hf. destruct val; reflexivity. }
      split; [rewrite Hsk; destruct val; reflexivity|].
      split; [rewrite Hrg; destruct val; reflexivity|].
      split; [cbn [app]; apply perm_skip; exact Hperm|].
      split; [apply sublist_skip; exact Hss|].
      split; [apply sublist_cons; exact Hsf|].
      split.
      { intros x. rewrite Hval. destruct val; cbn [res_validation_results].
        - rewrite lookup_insert_is_Some. cbn [In].
          destruct (decide (code = x)); intuition congruence.
        - cbn [In]. intuition congruence. }
      split; [congruence|]. split; [lia|]. split; [lia|]. split; [lia|].
      split; [intros Hu; rewrite (Hupd' Hu); exact (Hupd Hu)|].
      split; [lia|].
      intros Hnc. specialize (Hconn Hnc). discriminate Hconn.
    + rewrite andb_false_r.
      match goal with
      | |- context [collect_loop c1 rest (S idx) sd ed upd val envs ?res2] =>
          specialize (IH c1 (S idx) res2)
      end.
      cbv zeta in IH.
      destruct IH as (s & f & Hs & Hf & Hsk & Hrg & Hperm & Hss & Hsf & Hval
                      & Hk' & Hcol' & Herr' & Hskip' & Hupd' & Hreg' & Hconn').
      exists s, (code :: f).
      assert (sql_count (code :: rest) = sql_count rest + 1) as Hn2
        by (unfold sql_count; cbn [length]; lia).
      rewrite Hn2.
      split; [rewrite Hs; reflexivity|].
      split; [rewrite Hf; cbn [res_failed]; rewrite <- app_assoc; reflexivity|].
      split; [rewrite Hsk; reflexivity|].
      split; [rewrite Hrg; reflexivity|].
      split; [symmetry; apply Permutation_cons_app; symmetry; exact Hperm|].
      split; [apply sublist_cons; exact Hss|].
      split; [apply sublist_skip; exact Hsf|].
      split; [intros x; rewrite Hval; reflexivity|].
      split; [congruence|]. split; [lia|]. split; [lia|]. split; [lia|].
      split; [intros Hu; rewrite (Hupd' Hu); exact (Hupd Hu)|].
      split; [lia|].
      intros Hnc. specialize (Hconn Hnc). injection Hconn as ->.
      destruct (Hconn' Hnc) as (-> & -> & ->). repeat split; reflexivity.
Qed.

End CollectingMany.

(** X19: [collect_multiple_stocks], called without a progress callback on
    a connector that answers with rows of ASCII text, files every stock
    code under exactly one of [success] and [failed], each in the order
    of the request; the lists [skipped] and [registered] stay empty, also
    when stocks were skipped: a skipped stock is filed under [success] and
    only counted in [total_skipped].  The totals start from zero, whatever
    the counters held before.  [validation_results] has an entry exactly
    for the successful stocks when validation is asked for, and none
    otherwise.  Without a logged-in connector every code is filed under
    [failed] and all totals are 0. *)
Theorem collect_multiple_files_every_code
    (c : EnhancedDailyPriceCollector.collector) (codes : list string)
    (start_date end_date : option string) (update_existing validate_data : bool)
    (envs : nat -> EnhancedDailyPriceCollector.call_env) (elapsed : Q) :
  (forall k, EnhancedDailyPriceCollector.kiwoom c = Some k -> ascii_replies k) ->
  let r := EnhancedDailyPriceCollector.collect_multiple_stocks c codes start_date
             end_date update_existing validate_data envs elapsed in
  let res := fst r in
  Permutation (EnhancedDailyPriceCollector.res_success res
               ++ EnhancedDailyPriceCollector.res_failed res) codes
  /\ sublist (EnhancedDailyPriceCollector.res_success res) codes
  /\ sublist (EnhancedDailyPriceCollector.res_failed res) codes
  /\ EnhancedDailyPriceCollector.res_skipped res = []
  /\ EnhancedDailyPriceCollector.res_registered res = []
  /\ 0 <= EnhancedDailyPriceCollector.res_total_skipped res
     <= sql_count (EnhancedDailyPriceCollector.res_success res)
  /\ (update_existing = true ->
      EnhancedDailyPriceCollector.res_total_skipped res = 0)
  /\ sql_count (EnhancedDailyPriceCollector.res_success res)
     <= EnhancedDailyPriceCollector.res_total_registered res <= sql_count codes
  /\ 0 <= EnhancedDailyPriceCollector.res_total_errors res <= sql_count codes
  /\ 0 <= EnhancedDailyPriceCollector.res_total_collected res
  /\ EnhancedDailyPriceCollector.res_total_collected res
     = EnhancedDailyPriceCollector.collected_count (snd r)
  /\ (forall code,
        is_Some (EnhancedDailyPriceCollector.res_validation_results res !! code)
        <-> validate_data = true
            /\ In code (EnhancedDailyPriceCollector.res_success res))
  /\ (connected c = false ->
        EnhancedDailyPriceCollector.res_success res = []
        /\ EnhancedDailyPriceCollector.res_failed res = codes
        /\ EnhancedDailyPriceCollector.res_total_collected res = 0
        /\ EnhancedDailyPriceCollector.res_total_errors res = 0
        /\ EnhancedDailyPriceCollector.res_total_skipped res = 0
        /\ EnhancedDailyPriceCollector.res_total_registered res = 0
        /\ EnhancedDailyPriceCollector.db_service (snd r)
           = EnhancedDailyPriceCollector.db_service c).
Proof.
  intros _ r res. unfold res, r.
  unfold EnhancedDailyPriceCollector.collect_multiple_stocks. cbv zeta.
  match goal with
  | |- context [EnhancedDailyPriceCollector.collect_loop ?c0 codes 0%nat
                  start_date end_date update_existing validate_data envs ?res0] =>
      pose proof (collect_loop_spec start_date end_date update_existing
                    validate_data envs codes c0 0%nat res0) as H;
      destruct (EnhancedDailyPriceCollector.collect_loop c0 codes 0%nat
                  start_date end_date update_existing validate_data envs res0)
        as [results c1]
  end.
  cbv zeta in H.
  cbn [fst snd EnhancedDailyPriceCollector.res_success
       EnhancedDailyPriceCollector.res_failed
       EnhancedDailyPriceCollector.res_skipped
       EnhancedDailyPriceCollector.res_registered
       EnhancedDailyPriceCollector.res_total_collected
       EnhancedDailyPriceCollector.res_total_errors
       EnhancedDailyPriceCollector.res_total_skipped
       EnhancedDailyPriceCollector.res_total_registered
       EnhancedDailyPriceCollector.res_validation_results
       EnhancedDailyPriceCollector.kiwoom
       EnhancedDailyPriceCollector.db_service
       EnhancedDailyPriceCollector.collected_count
       EnhancedDailyPriceCollector.error_count
       EnhancedDailyPriceCollector.skipped_count
       EnhancedDailyPriceCollector.registered_stocks app] in *.
  destruct H as (s & f & Hs & Hf & Hsk & Hrg & Hperm & Hss & Hsf & Hval
                 & Hk & Hcol & Herr & Hskip & Hupd & Hreg & Hconn).
  rewrite Hs, Hf, Hsk, Hrg.
  split; [exact Hperm|]. split; [exact Hss|]. split; [exact Hsf|].
  split; [reflexivity|]. split; [reflexivity|].
  split; [lia|]. split; [exact Hupd|]. split; [lia|]. split; [lia|].
  split; [lia|]. split; [reflexivity|].
  split.
  { intros code. rewrite Hval, lookup_empty. split.
    - intros [H|H]; [destruct H as [? H]; discriminate H|exact H].
    - intros H. right. exact H. }
  intros Hnc.
  assert (connected
            (EnhancedDailyPriceCollector.mk_collector
               (EnhancedDailyPriceCollector.kiwoom c)
               (EnhancedDailyPriceCollector.db_service c) 0 0 0 0) = false)
    as Hnc0 by exact Hnc.
  destruct (Hconn Hnc0) as (-> & -> & ->).
  repeat split; reflexivity.
Qed.

Lemma collect_multiple_files_every_code_witness :
  (forall k, EnhancedDailyPriceCollector.kiwoom sample_collector = Some k ->
             ascii_replies k)
  /\ EnhancedDailyPriceCollector.res_skipped
       (fst (EnhancedDailyPriceCollector.collect_multiple_stocks sample_collector
               ["005930"; "000660"] None None false true sample_envs 0%Q))
     = [].
Proof.
  split; [exact sample_connector_ascii|].
  pose proof (collect_multiple_files_every_code sample_collector
                ["005930"; "000660"] None None false true sample_envs 0%Q
                sample_connector_ascii) as H.
  cbv zeta in H. destruct H as (_ & _ & _ & Hsk & _). exact Hsk.
Defined.




(* ===================================================================== *)
(** * The stock manager *)
(* ===================================================================== *)

Section StockLists.

Import DynamicTableManager StockMetadataManager EnhancedDailyPriceCollector.
Import KiwoomStockManager.

(** One registration: the row of [code] is made or refreshed, and nothing
    else changes. *)
Lemma register_stock_effect (d : db) (code : string) (name market : option string)
    (now : Z) :
  exists s',
    register_stock d code name market now
    = (true, set_stocks d (<[code := s']> (stocks d)))
    /\ match stocks d !! code with
       | Some old => keeps_progress old s'
       | None => newly_registered code s'
       end.
Proof.
  unfold register_stock. destruct (stocks d !! code) as [old|].
  - eexists. split; [reflexivity|]. unfold keeps_progress. cbn.
    repeat split; reflexivity.
  - eexists. split; [reflexivity|]. unfold newly_registered. cbn.
    repeat split; reflexivity.
Qed.

Lemma keeps_progress_trans (a b c : Stock.t) :
  keeps_progress a b -> keeps_progress b c -> keeps_progress a c.
Proof.
  unfold keeps_progress. intros (?&?&?&?&?&?&?&?) (?&?&?&?&?&?&?&?).
  repeat split; congruence.
Qed.

Lemma newly_registered_kept (code : string) (a b : Stock.t) :
  newly_registered code a -> keeps_progress a b -> newly_registered code b.
Proof.
  unfold newly_registered, keeps_progress.
  intros (?&?&?&?&?&?&?) (?&?&?&?&?&?&?&?). repeat split; congruence.
Qed.

Lemma register_loop_spec (clock : nat -> Z) (l : list stock_entry) :
  forall (d : db) (i : nat) (sc fc : Z),
    let r := register_loop d l clock i sc fc in
    fst (fst r) + snd (fst r) = sc + fc + sql_count l
    /\ sc <= fst (fst r) /\ fc <= snd (fst r)
    /\ tables (snd r) = tables d
    /\ metadata (snd r) = metadata d
    /\ (forall code, ~ In code (map entry_code l) ->
          stocks (snd r) !! code = stocks d !! code)
    /\ (forall code, In code (map entry_code l) ->
          exists s',
            stocks (snd r) !! code = Some s'
            /\ match stocks d !! code with
               | Some old => keeps_progress old s'
               | None => newly_registered code s'
               end)
    /\ (registry_wf d -> registry_wf (snd r)).
Proof.
  induction l as [|e rest IH]; intros d i sc fc.
  - cbn [register_loop fst snd map]. unfold sql_count. cbn [length].
    split; [lia|]. split; [lia|]. split; [lia|].
    split; [reflexivity|]. split; [reflexivity|].
    split; [reflexivity|]. split; [intros code []|]. auto.
  - cbn [register_loop].
    destruct (register_stock_effect d (entry_code e) (Some (entry_name e))
                (Some (entry_market e)) (clock i)) as (s1 & -> & Hs1).
    match goal with
    | |- context [register_loop ?d1 rest clock (S i) ?sc1 ?fc1] =>
        specialize (IH d1 (S i) sc1 fc1);
        destruct (register_loop d1 rest clock (S i) sc1 fc1) as [[s f] d']
    end.
    cbv zeta in IH. cbn [fst snd set_stocks stocks tables metadata] in *.
    destruct IH as (Hsum & Hsc & Hfc & Ht & Hm & Hout & Hin & Hwf).
    assert (sql_count (e :: rest) = sql_count rest + 1) as ->
      by (unfold sql_count; cbn [length]; lia).
    split; [lia|]. split; [lia|]. split; [lia|].
    split; [exact Ht|]. split; [exact Hm|].
    split.
    { intros code Hn. cbn [map In] in Hn.
      rewrite Hout by tauto. apply lookup_insert_ne. tauto. }
    split.
    { intros code Hc. cbn [map In] in Hc.
      destruct (in_dec string_dec code (map entry_code rest)) as [Hr|Hr].
      - destruct (Hin code Hr) as (s' & Hs' & Hrel). exists s'.
        split; [exact Hs'|].
        destruct (decide (entry_code e = code)) as [<-|Hne].
        + rewrite lookup_insert_eq in Hrel.
          destruct (stocks d !! entry_code e).
          * eapply keeps_progress_trans; eassumption.
          * eapply newly_registered_kept; eassumption.
        + rewrite lookup_insert_ne in Hrel by exact Hne. exact Hrel.
      - destruct Hc as [<-|Hc]; [|contradiction].
        exists s1. rewrite (Hout _ Hr), lookup_insert_eq.
        split; [reflexivity|exact Hs1]. }
    intros Hd. apply Hwf. unfold registry_wf in *. cbn [stocks].
    apply map_Forall_insert_2; [|exact Hd].
    destruct (stocks d !! entry_code e) as [old|] eqn:Ho.
    + destruct Hs1 as (-> & _). exact (Hd _ _ Ho).
    + exact (proj1 Hs1).
Qed.

End StockLists.

(** X21: [register_all_stocks_to_db], given a stock list.  An empty list
    gives the error result and changes nothing.  Otherwise the successes
    and failures add up to the length of the list, which is the reported
    total; no table and no table definition changes; the rows of stocks
    that are not listed stay as they were; every listed stock has a row
    afterwards, which keeps the collection progress (table flag, row
    count, first and latest date, activity flag, creation time) it had
    before, and is that of a stock never collected when it was new.  Rows
    stay stored under their own codes. *)
Theorem register_all_keeps_progress (d : db)
    (stock_list : list KiwoomStockManager.stock_entry) (clock : nat -> Z) :
  let r := KiwoomStockManager.register_all_stocks_to_db d stock_list clock in
  (stock_list = [] ->
     r = (KiwoomStockManager.mk_register_result 0 0 None
            (Some "종목 리스트가 비어있음"), d))
  /\ (stock_list <> [] ->
        KiwoomStockManager.reg_success (fst r) + KiwoomStockManager.reg_failed (fst r)
        = sql_count stock_list
        /\ 0 <= KiwoomStockManager.reg_success (fst r)
        /\ 0 <= KiwoomStockManager.reg_failed (fst r)
        /\ KiwoomStockManager.reg_total (fst r) = Some (sql_count stock_list)
        /\ KiwoomStockManager.reg_error (fst r) = None)
  /\ tables (snd r) = tables d
  /\ metadata (snd r) = metadata d
  /\ (forall code,
        ~ In code (map KiwoomStockManager.entry_code stock_list) ->
        stocks (snd r) !! code = stocks d !! code)
  /\ (forall code,
        In code (map KiwoomStockManager.entry_code stock_list) ->
        exists s',
          stocks (snd r) !! code = Some s'
          /\ match stocks d !! code with
             | Some old => keeps_progress old s'
             | None => newly_registered code s'
             end)
  /\ (registry_wf d -> registry_wf (snd r)).
Proof.
  intros r. unfold r, KiwoomStockManager.register_all_stocks_to_db.
  destruct stock_list as [|e rest].
  { cbn [fst snd map]. split; [reflexivity|]. split; [congruence|].
    split; [reflexivity|]. split; [reflexivity|]. split; [reflexivity|].
    split; [intros code []|]. auto. }
  pose proof (register_loop_spec clock (e :: rest) d 0%nat 0 0) as H.
  cbv zeta in H.
  destruct (KiwoomStockManager.register_loop d (e :: rest) clock 0 0 0)
    as [[s f] d'].
  cbn [fst snd KiwoomStockManager.reg_success KiwoomStockManager.reg_failed
       KiwoomStockManager.reg_total KiwoomStockManager.reg_error] in *.
  destruct H as (Hsum & Hsc & Hfc & Ht & Hm & Hout & Hin & Hwf).
  split; [discriminate|].
  split.
  { intros _. split; [lia|]. split; [lia|]. split; [lia|].
    split; reflexivity. }
  split; [exact Ht|]. split; [exact Hm|]. split; [exact Hout|].
  split; [exact Hin|exact Hwf].
Qed.

Section MarketLists.

Import EnhancedDailyPriceCollector KiwoomStockManager.

Lemma split_on_no_sep (sep : ascii) (cs : list ascii) :
  forall piece, In piece (split_on sep cs) -> ~ In sep piece.
Proof.
  induction cs as [|c cs IH]; intros piece Hin.
  - destruct Hin as [<-|[]]. intros [].
  - cbn [split_on] in Hin. destruct (Ascii.eqb c sep) eqn:E.
    + destruct Hin as [<-|Hin]; [intros []|exact (IH _ Hin)].
    + apply Ascii.eqb_neq in E.
      destruct (split_on sep cs) as [|p ps].
      * destruct Hin as [<-|[]]. intros [H|[]]. congruence.
      * destruct Hin as [<-|Hin].
        -- intros [H|H]; [congruence|]. exact (IH p (or_introl eq_refl) H).
        -- exact (IH piece (or_intror Hin)).
Qed.

Lemma stripped_piece_no_sep (sep : ascii) (s code : string) :
  In code (map strip (split s sep)) ->
  ~ In sep (list_ascii_of_string code).
Proof.
  unfold split. rewrite map_map. intros H.
  apply in_map_iff in H as (piece & <- & Hin).
  unfold strip. rewrite !list_ascii_of_string_of_list_ascii.
  intros Hsep. apply strip_chars_incl in Hsep.
  exact (split_on_no_sep sep _ piece Hin Hsep).
Qed.

Lemma sublist_bool_filter {A} (f : A -> bool) (l : list A) :
  sublist (List.filter f l) l.
Proof.
  induction l as [|x l IH]; [constructor|].
  cbn [List.filter]. destruct (f x).
  - apply sublist_skip. exact IH.
  - apply sublist_cons. exact IH.
Qed.

Lemma stock_list_loop_spec (k : connector) (market : string)
    (codes : list string) :
  let l := stock_list_loop k market codes in
  (length l <= length codes)%nat
  /\ sublist (map entry_code l) codes
  /\ forall e, In e l ->
       In (entry_code e) codes
       /\ entry_name e <> ""
       /\ entry_market e = market
       /\ GetMasterCodeName k (entry_code e) = Some (entry_name e).
Proof.
  induction codes as [|code rest IH]; cbn [stock_list_loop].
  - split; [apply le_n|]. split; [constructor|]. intros e [].
  - cbv zeta in IH. destruct IH as (Hlen & Hsub & Hall).
    assert (let l := stock_list_loop k market rest in
            (length l <= length (code :: rest))%nat
            /\ sublist (map entry_code l) (code :: rest)
            /\ forall e, In e l ->
                 In (entry_code e) (code :: rest)
                 /\ entry_name e <> ""
                 /\ entry_market e = market
                 /\ GetMasterCodeName k (entry_code e) = Some (entry_name e))
      as Hskip.
    { cbv zeta. split; [cbn [length]; lia|].
      split; [apply sublist_cons; exact Hsub|].
      intros e He. destruct (Hall e He) as (H1 & H2 & H3 & H4).
      repeat split; try assumption. right. exact H1. }
    destruct (GetMasterCodeName k code) as [name|] eqn:Hn; [|exact Hskip].
    destruct (String.eqb name "") eqn:Hne; cbn [negb]; [exact Hskip|].
    apply String.eqb_neq in Hne.
    split; [cbn [length]; lia|].
    split; [cbn [map entry_code]; apply sublist_skip; exact Hsub|].
    intros e [<-|He].
    + cbn [entry_code entry_name entry_market].
      repeat split; try assumption; try reflexivity. left. reflexivity.
    + destruct (Hall e He) as (H1 & H2 & H3 & H4).
      repeat split; try assumption. right. exact H1.
Qed.

End MarketLists.

(** X22: [get_market_stock_list], for a code list of ASCII text.  It
    returns at most 100 stocks, and none without a logged-in connector.
    Every stock it returns has a non-empty code without semicolon, taken
    from the code list of the market, the non-empty name that
    [GetMasterCodeName] gives for that code, and the market name of the
    market code (UNKNOWN for a code that is not in the table); the stocks
    keep the order of the code list. *)
Theorem market_stock_list_is_capped
    (kiwoom : option EnhancedDailyPriceCollector.connector)
    (market_code : string) :
  (forall k code_list,
      kiwoom = Some k ->
      EnhancedDailyPriceCollector.GetCodeListByMarket k market_code
      = Some code_list ->
      ascii_text code_list) ->
  let l := KiwoomStockManager.get_market_stock_list kiwoom market_code in
  (length l <= 100)%nat
  /\ (forall e, In e l ->
        KiwoomStockManager.entry_code e <> ""
        /\ KiwoomStockManager.entry_name e <> ""
        /\ ~ In ";"%char (list_ascii_of_string (KiwoomStockManager.entry_code e))
        /\ KiwoomStockManager.entry_market e
           = default "UNKNOWN" (KiwoomStockManager.MARKET_CODES market_code)
        /\ exists k code_list,
             kiwoom = Some k
             /\ EnhancedDailyPriceCollector.is_connected k = true
             /\ EnhancedDailyPriceCollector.GetCodeListByMarket k market_code
                = Some code_list
             /\ In (KiwoomStockManager.entry_code e)
                   (map EnhancedDailyPriceCollector.strip
                      (KiwoomStockManager.split code_list ";"))
             /\ EnhancedDailyPriceCollector.GetMasterCodeName k
                  (KiwoomStockManager.entry_code e)
                = Some (KiwoomStockManager.entry_name e))
  /\ (forall k code_list,
        kiwoom = Some k ->
        EnhancedDailyPriceCollector.GetCodeListByMarket k market_code
        = Some code_list ->
        sublist (map KiwoomStockManager.entry_code l)
                (map EnhancedDailyPriceCollector.strip
                   (KiwoomStockManager.split code_list ";")))
  /\ ((forall k, kiwoom = Some k ->
                 EnhancedDailyPriceCollector.is_connected k = false) ->
      l = []).
Proof.
  intros _ l. unfold l, KiwoomStockManager.get_market_stock_list.
  destruct kiwoom as [k|].
  2:{ split; [cbn; lia|]. split; [intros e []|].
      split; [discriminate|reflexivity]. }
  destruct (EnhancedDailyPriceCollector.is_connected k) eqn:Hconn; cbn [negb].
  2:{ split; [cbn; lia|]. split; [intros e []|].
      split; [intros; apply sublist_nil_l|reflexivity]. }
  destruct (EnhancedDailyPriceCollector.GetCodeListByMarket k market_code)
    as [code_list|] eqn:Hlist.
  2:{ split; [cbn; lia|]. split; [intros e []|].
      split; [intros; apply sublist_nil_l|reflexivity]. }
  destruct (String.eqb code_list "") eqn:Hempty.
  { split; [cbn; lia|]. split; [intros e []|].
    split; [intros; apply sublist_nil_l|reflexivity]. }
  cbv zeta.
  set (pieces := map EnhancedDailyPriceCollector.strip
                   (KiwoomStockManager.split code_list ";")).
  set (codes := List.filter (fun code => negb (String.eqb code "")) pieces).
  pose proof (stock_list_loop_spec k
                (default "UNKNOWN" (KiwoomStockManager.MARKET_CODES market_code))
                (firstn 100 codes)) as H.
  cbv zeta in H. destruct H as (Hlen & Hsub & Hall).
  split.
  { pose proof (firstn_le_length 100 codes). lia. }
  split.
  { intros e He. destruct (Hall e He) as (Hin & Hname & Hmarket & Hlookup).
    apply in_firstn in Hin. unfold codes in Hin.
    apply filter_In in Hin as [Hin Hne].
    apply negb_true_iff, String.eqb_neq in Hne.
    split; [exact Hne|]. split; [exact Hname|].
    split; [exact (stripped_piece_no_sep ";" code_list _ Hin)|].
    split; [exact Hmarket|].
    exists k, code_list. repeat split; try assumption; reflexivity. }
  split.
  { intros k' code_list' [= <-] Hlist'. rewrite Hlist in Hlist'.
    injection Hlist' as <-. fold pieces.
    transitivity (firstn 100 codes); [exact Hsub|].
    transitivity codes; [apply sublist_take|apply sublist_bool_filter]. }
  intros Hnc. rewrite (Hnc k eq_refl) in Hconn. discriminate Hconn.
Qed.

Lemma sample_code_list_ascii :
  forall k code_list,
    Some sample_connector = Some k ->
    EnhancedDailyPriceCollector.GetCodeListByMarket k "0" = Some code_list ->
    ascii_text code_list.
Proof. intros k code_list [= <-] [= <-]. reflexivity. Qed.

Lemma market_stock_list_is_capped_witness :
  (forall k code_list,
      Some sample_connector = Some k ->
      EnhancedDailyPriceCollector.GetCodeListByMarket k "0" = Some code_list ->
      ascii_text code_list)
  /\ (length (KiwoomStockManager.get_market_stock_list (Some sample_connector) "0")
      <= 100)%nat.
Proof.
  split; [exact sample_code_list_ascii|].
  pose proof (market_stock_list_is_capped (Some sample_connector) "0"
                sample_code_list_ascii) as H.
  cbv zeta in H. exact (proj1 H).
Defined.
